(** * Tattoo Artist API: the chat booking webhook and the admin gate

    A shallow embedding of [src/main.py] ([bot_update], [require_admin],
    [get_admin_secret]) with the document shapes of [src/schemas.py].

    Python values are modelled by [Value]; a [dict] with string keys is a
    [gmap string Value]; a Python [str] is the Rocq [string] of its UTF-8
    bytes.  The handler runs in a small state-and-error monad over the
    document store. *)

From Stdlib Require Import ZArith NArith Ascii String HexString.
From stdpp Require Import gmap strings list fin_maps.

#[local] Set Warnings "-register-all".
#[local] Open Scope string_scope.

(** ** Python values *)

Module Py.

Inductive Value :=
| VNone
| VBool (b : bool)
| VInt (z : Z)
| VStr (s : string)
| VDict (d : gmap string Value).

(** [v == "literal"] for a value [v] of any type. *)
Definition eq_str (v : Value) (s : string) : bool :=
  match v with
  | VStr t => String.eqb t s
  | _ => false
  end.

(** [x or ""] for an optional string [x]. *)
Definition or_empty (x : option string) : string :=
  match x with
  | Some s => s
  | None => ""
  end.

(** *** [str.strip()]

    Python strips the code points for which [str.isspace] holds: U+0009 to
    U+000D, U+001C to U+0020, U+0085, U+00A0, U+1680, U+2000 to U+200A,
    U+2028, U+2029, U+202F, U+205F and U+3000.  On the UTF-8 bytes these are
    the sequences of one, two or three bytes recognised by [is_space_seq]. *)

Definition between (lo hi n : N) : bool := ((lo <=? n) && (n <=? hi))%N.

Definition is_space_seq (l : list N) : bool :=
  match l with
  | [a] => between 9 13 a || between 28 32 a
  | [a; b] => (a =? 194)%N && ((b =? 133)%N || (b =? 160)%N)
  | [a; b; c] =>
      ((a =? 225)%N && (b =? 154)%N && (c =? 128)%N)
      || ((a =? 226)%N && (b =? 128)%N
          && (between 128 138 c || (c =? 168)%N || (c =? 169)%N || (c =? 175)%N))
      || ((a =? 226)%N && (b =? 129)%N && (c =? 159)%N)
      || ((a =? 227)%N && (b =? 128)%N && (c =? 128)%N)
  | _ => false
  end.

(** Drop the white space at the front of [s]; [ws] recognises one encoded
    white-space code point among the next one, two or three bytes. *)
Fixpoint drop_spaces (ws : list N → bool) (s : list N) : list N :=
  match s with
  | [] => []
  | a :: r1 =>
      if ws [a] then drop_spaces ws r1
      else match r1 with
           | [] => s
           | b :: r2 =>
               if ws [a; b] then drop_spaces ws r2
               else match r2 with
                    | [] => s
                    | c :: r3 => if ws [a; b; c] then drop_spaces ws r3 else s
                    end
           end
  end.

Definition lstrip (s : list N) : list N := drop_spaces is_space_seq s.

(** From the right the same scan runs over the reversed bytes. *)
Definition rstrip (s : list N) : list N :=
  rev (drop_spaces (λ l, is_space_seq (rev l)) (rev s)).

Definition bytes_of (s : string) : list N :=
  N_of_ascii <$> list_ascii_of_string s.

Definition str_of (l : list N) : string :=
  string_of_list_ascii (ascii_of_N <$> l).

Definition strip (s : string) : string :=
  str_of (lstrip (rstrip (bytes_of s))).

End Py.
Export Py.

Abbreviation Doc := (gmap string Value).

(** ** The document store *)

Module Database.

(** The operations the handlers issue against the store. *)
Inductive StoreOp :=
| FindOne (collection : string)
| InsertOne (collection : string)
| UpdateOne (collection : string).

Definition is_write (op : StoreOp) : bool :=
  match op with
  | FindOne _ => false
  | InsertOne _ | UpdateOne _ => true
  end.

#[export] Instance StoreOp_eq_dec : EqDecision StoreOp.
Proof. solve_decision. Defined.

Inductive exn :=
| HTTPException (status_code : Z) (detail : string)
| PersistenceError (op : StoreOp)
| TypeError
| AttributeError
| InvalidId.

(** Modelled from the spec: the module [database] ([db], [create_document])
    is not among the sources.  The spec describes it as durable storage
    keyed by collection name with insert-one, find-by-filter and
    update-by-filter-with-patch, where insert returns the generated
    identifier.  A collection is the list of its documents in insertion
    order; nothing is ever deleted, so the identifier of a document is its
    position and [str(_id)] is that number in hexadecimal.  Documents are
    values: assigning into a dict that [find_one] returned does not change
    what is stored.  [db] is [None] when the store is not configured. *)
Abbreviation Collection := (list Doc).
Abbreviation Store := (gmap string (list Doc)).

Definition collection (d : Store) (c : string) : Collection :=
  default [] (d !! c).

(** Modelled from the spec: which store operations fail during a call
    (the spec's [PersistenceError]); the sources leave store failures to
    the driver.  The plan decides per kind of operation and collection:
    two operations of the same kind on the same collection in one call
    fail or succeed together. *)
Definition Faults := StoreOp → bool.

Definition no_faults : Faults := λ _, false.

Record Outcome (A : Type) := MkOutcome {
  result : exn + A;
  store : option Store;
  ops : list StoreOp;
}.
Arguments MkOutcome {A} _ _ _.
Arguments result {A} _.
Arguments store {A} _.
Arguments ops {A} _.

(** A computation reads the fault plan, threads [db] and logs the store
    operations it attempts. *)
Definition M (A : Type) : Type := Faults → option Store → Outcome A.

Definition ret {A} (a : A) : M A := λ _ db, MkOutcome (inr a) db [].

Definition raise {A} (e : exn) : M A := λ _ db, MkOutcome (inl e) db [].

Definition bind {A B} (m : M A) (k : A → M B) : M B := λ flt db,
  let o := m flt db in
  match result o with
  | inl e => MkOutcome (inl e) (store o) (ops o)
  | inr a =>
      let o' := k a flt (store o) in
      MkOutcome (result o') (store o') (ops o ++ ops o')%list
  end.

(** [db is None] *)
Definition db_is_None : M bool := λ _ db,
  MkOutcome (inr (match db with None => true | Some _ => false end)) db [].

(** One operation against the store: it is logged, fails when the fault
    plan says so, and needs a configured store. *)
Definition store_op {A} (op : StoreOp) (f : Store → A * Store) : M A :=
  λ flt db,
    if flt op then MkOutcome (inl (PersistenceError op)) db [op]
    else match db with
         | None => MkOutcome (inl TypeError) db [op]
         | Some d => let '(a, d') := f d in MkOutcome (inr a) (Some d') [op]
         end.

(** The filter [{"telegram_user_id": user_id}]. *)
Definition has_user (user_id : Z) (doc : Doc) : bool :=
  match doc !! "telegram_user_id" with
  | Some (VInt z) => (z =? user_id)%Z
  | _ => false
  end.

(** [db[c].find_one({"telegram_user_id": user_id})]: the first match, with
    its [_id]. *)
Definition find_one_by_user (c : string) (user_id : Z) : M (option (nat * Doc)) :=
  store_op (FindOne c)
    (λ d, (list_find (λ doc, has_user user_id doc = true) (collection d c), d)).

(** [db[c].find_one({"_id": oid})] *)
Definition find_one_by_id (c : string) (oid : nat) : M (option (nat * Doc)) :=
  store_op (FindOne c)
    (λ d, ((λ doc, (oid, doc)) <$> collection d c !! oid, d)).

(** The store after one more document in collection [c]. *)
Definition insert_doc (c : string) (data : Doc) (d : Store) : Store :=
  <[c := (collection d c ++ [data])%list]> d.

(** The store after the fields of [patch] are set on document [oid] of
    collection [c]; no such document, no change. *)
Definition set_fields (c : string) (oid : nat) (patch : Doc) (d : Store) : Store :=
  match collection d c !! oid with
  | Some doc => <[c := <[oid := patch ∪ doc]> (collection d c)]> d
  | None => d
  end.

(** [create_document(c, data)]: stores the document and returns [str] of the
    generated identifier. *)
Definition create_document (c : string) (data : Doc) : M string :=
  store_op (InsertOne c)
    (λ d, (HexString.of_nat (List.length (collection d c)),
           insert_doc c data d)).

(** [db[c].update_one({"_id": oid}, {"$set": patch})] *)
Definition update_one (c : string) (oid : nat) (patch : Doc) : M unit :=
  store_op (UpdateOne c) (λ d, (tt, set_fields c oid patch d)).

(** [ObjectId(s)] for the string of an identifier. *)
Definition ObjectId (s : string) : M nat :=
  if String.eqb (HexString.of_nat (HexString.to_nat s)) s
  then ret (HexString.to_nat s)
  else raise InvalidId.

End Database.
Export Database.

(** [x ← m; k] and [m;; k] are stdpp's notations for [bind]. *)
#[export] Instance M_ret : MRet M := @ret.
#[export] Instance M_bind : MBind M := λ A B k m, bind m k.

(** ** [main.py] *)

(** [os.environ] *)
Abbreviation Environ := (gmap string string).

(** [os.getenv(name, fallback)] *)
Definition getenv (env : Environ) (name fallback : string) : string :=
  default fallback (env !! name).

Definition get_admin_secret (env : Environ) : string :=
  let secret := getenv env "ADMIN_PASSWORD" "admin123" in
  secret.

Definition require_admin (env : Environ) (password : string) : exn + unit :=
  if negb (String.eqb password (get_admin_secret env))
  then inl (HTTPException 401 "Unauthorized")
  else inr tt.

Record TelegramUpdate := {
  message_text : option string;
  user_id : option Z;
  username : option string;
}.

(** The replies of the dialogue. *)
Definition reply_greeting : string := "Привет! Как тебя зовут?".
Definition reply_name_again : string := "Напиши, пожалуйста, как к тебе обращаться".
Definition reply_ask_phone : string := "Оставь телефон или @username для связи".
Definition reply_ask_date : string :=
  "Когда тебе удобно? Укажи дату (например, 2025-11-20)".
Definition reply_ask_time : string := "А во сколько примерно?".
Definition reply_ask_note : string :=
  "Добавь пожелания по стилю/размеру (или напиши — нет)".
Definition reply_done (app_id : string) : string :=
  "Готово! Я записал заявку №" +:+ app_id +:+ ". Мы свяжемся с тобой.".
Definition reply_fallback : string := "Напиши любое сообщение, чтобы начать запись".

(** The response [{"reply": reply, "state": state}]. *)
Definition response (reply : string) (state : Value) : Doc :=
  {[ "reply" := VStr reply; "state" := state ]}.

(** [session.get(key, fallback)] *)
Definition get (session : Doc) (key : string) (fallback : Value) : Value :=
  default fallback (session !! key).

(** [data[key] = value]; only a [dict] supports it. *)
Definition setitem (data : Value) (key : string) (value : Value) : M Value :=
  match data with
  | VDict d => ret (VDict (<[key := value]> d))
  | _ => raise TypeError
  end.

(** The document a new session starts from. *)
Definition new_session (user_id : Z) : Doc :=
  {[ "telegram_user_id" := VInt user_id;
     "state" := VStr "ask_name";
     "data" := VDict ∅ ]}.

(** [{"state": state, "data": data}] *)
Definition set_state_data (state : string) (data : Value) : Doc :=
  {[ "state" := VStr state; "data" := data ]}.

(** [bot_update].  [find_one] returns a document with its [_id], never an
    empty one, so [not session] is the case [None].  The session read back
    after [create_document] is there whenever the insert went through, and
    in [ask_note] [data] is a [dict] once the three assignments went
    through; the branches for the other cases keep the function total. *)
Definition bot_update (update : TelegramUpdate) : M Doc :=
  unconfigured ← db_is_None;
  if (unconfigured : bool) then raise (HTTPException 500 "Database not configured")
  else
  match user_id update with
  | None => raise (HTTPException 400 "user_id required")
  | Some user_id =>
    session ← find_one_by_user "botsession" user_id;
    match session with
    | None =>
        session_id ← create_document "botsession" (new_session user_id);
        oid ← ObjectId session_id;
        session ← find_one_by_id "botsession" oid;
        match session with
        | None => raise AttributeError
        | Some (_, session) =>
            ret (response reply_greeting (get session "state" VNone))
        end
    | Some (_id, session) =>
        let state := get session "state" (VStr "ask_name") in
        let data := get session "data" (VDict ∅) in
        let text := strip (or_empty (message_text update)) in
        if eq_str state "ask_name" then
          if String.eqb text "" then ret (response reply_name_again state)
          else
            data ← setitem data "client_name" (VStr text);
            update_one "botsession" _id (set_state_data "ask_phone" data);;
            ret (response reply_ask_phone (VStr "ask_phone"))
        else if eq_str state "ask_phone" then
          data ← setitem data "phone" (VStr text);
          update_one "botsession" _id (set_state_data "ask_date" data);;
          ret (response reply_ask_date (VStr "ask_date"))
        else if eq_str state "ask_date" then
          data ← setitem data "preferred_date" (VStr text);
          update_one "botsession" _id (set_state_data "ask_time" data);;
          ret (response reply_ask_time (VStr "ask_time"))
        else if eq_str state "ask_time" then
          data ← setitem data "preferred_time" (VStr text);
          update_one "botsession" _id (set_state_data "ask_note" data);;
          ret (response reply_ask_note (VStr "ask_note"))
        else if eq_str state "ask_note" then
          data ← setitem data "note" (VStr text);
          data ← setitem data "source" (VStr "bot");
          data ← setitem data "telegram_user_id" (VInt user_id);
          match data with
          | VDict booking =>
              app_id ← create_document "appointment" booking;
              update_one "botsession" _id {[ "state" := VStr "complete" ]};;
              ret (response (reply_done app_id) (VStr "complete"))
          | _ => raise TypeError
          end
        else ret (response reply_fallback (VStr "ask_name"))
    end
  end.

(** ** What a caller can observe of the store *)

Definition sessions (d : Store) : Collection := collection d "botsession".

Definition bookings (d : Store) : Collection := collection d "appointment".

(** The session [bot_update] finds for a user, with its [_id]. *)
Definition find_session (d : Store) (user_id : Z) : option (nat * Doc) :=
  list_find (λ doc, has_user user_id doc = true) (sessions d).

(** [session.get("state", "ask_name")] and [session.get("data", {})], as
    [bot_update] reads them. *)
Definition state_of (session : Doc) : Value := get session "state" (VStr "ask_name").

Definition data_of (session : Doc) : Value := get session "data" (VDict ∅).

(** [text = (update.message_text or "").strip()] *)
Definition text_of (update : TelegramUpdate) : string :=
  strip (or_empty (message_text update)).

(** The document [bot_update] hands to [create_document] in [ask_note]. *)
Definition booking_of (user_id : Z) (text : string) (a : Doc) : Doc :=
  <["telegram_user_id" := VInt user_id]>
    (<["source" := VStr "bot"]> (<["note" := VStr text]> a)).

(** Several calls in a row, each on the store the previous one left. *)
Fixpoint run (flt : Faults) (updates : list TelegramUpdate) (db : option Store)
  : option Store :=
  match updates with
  | [] => db
  | u :: rest => run flt rest (store (bot_update u flt db))
  end.

(** The results of those calls, in order. *)
Fixpoint results (flt : Faults) (updates : list TelegramUpdate)
    (db : option Store) : list (exn + Doc) :=
  match updates with
  | [] => []
  | u :: rest =>
      let o := bot_update u flt db in
      result o :: results flt rest (store o)
  end.

(** An outcome with one more logged operation in front. *)
Definition logged {A} (op : StoreOp) (o : Outcome A) : Outcome A :=
  MkOutcome (result o) (store o) (op :: ops o).

(** ** Concrete inputs *)

(** A message of user [uid], and a store with one session. *)
Definition msg (uid : Z) (t : string) : TelegramUpdate :=
  {| message_text := Some t; user_id := Some uid; username := None |}.

Definition session_at (uid : Z) (state : string) (a : Doc) : Doc :=
  {[ "telegram_user_id" := VInt uid; "state" := VStr state; "data" := VDict a ]}.

Definition one_session (uid : Z) (state : string) (a : Doc) : Store :=
  {[ "botsession" := [session_at uid state a] ]}.

(** The dialogue of the scenario: user 42 goes through the whole form. *)
Definition scenario : list TelegramUpdate :=
  [ {| message_text := None; user_id := Some 42%Z; username := None |};
    msg 42 "Alex"; msg 42 "+1555"; msg 42 "2025-12-01"; msg 42 "14:00";
    msg 42 "no preference" ].

(** The bookings in [db], none when there is no store. *)
Definition stored_bookings (db : option Store) : Collection :=
  match db with
  | Some d => bookings d
  | None => []
  end.

(** How many times a call attempted to insert a booking. *)
Definition booking_inserts (l : list StoreOp) : nat :=
  List.length (filter (λ op, op = InsertOne "appointment") l).

(** The fault plan in which exactly the operation [op] fails. *)
Definition failing (op : StoreOp) : Faults := λ op', bool_decide (op' = op).

(** The steps of the dialogue that store an answer: state, answer key and
    next state, as the branches of [bot_update] have them. *)
Definition steps : list (string * string * string) :=
  [ ("ask_name", "client_name", "ask_phone");
    ("ask_phone", "phone", "ask_date");
    ("ask_date", "preferred_date", "ask_time");
    ("ask_time", "preferred_time", "ask_note") ].

(** What one call does to the store and which operations it logs, over
    all requests, stores and fault plans. *)
Inductive effect (upd : TelegramUpdate)
  : option Store → option Store → list StoreOp → Prop :=
| effect_rejected db : effect upd db db []
| effect_read d : effect upd (Some d) (Some d) [FindOne "botsession"]
| effect_write_failed d op :
    op ∈ [InsertOne "botsession"; UpdateOne "botsession"] →
    effect upd (Some d) (Some d) [FindOne "botsession"; op]
| effect_booking_failed d uid i s :
    user_id upd = Some uid →
    find_session d uid = Some (i, s) →
    state_of s = VStr "ask_note" →
    effect upd (Some d) (Some d) [FindOne "botsession"; InsertOne "appointment"]
| effect_new d uid :
    user_id upd = Some uid →
    find_session d uid = None →
    effect upd (Some d) (Some (insert_doc "botsession" (new_session uid) d))
      [FindOne "botsession"; InsertOne "botsession"; FindOne "botsession"]
| effect_advanced d uid i s a tag key next :
    user_id upd = Some uid →
    find_session d uid = Some (i, s) →
    state_of s = VStr tag →
    data_of s = VDict a →
    (tag, key, next) ∈ steps →
    effect upd (Some d)
      (Some (set_fields "botsession" i
               (set_state_data next (VDict (<[key := VStr (text_of upd)]> a))) d))
      [FindOne "botsession"; UpdateOne "botsession"]
| effect_booked d uid i s a (completed : bool) :
    user_id upd = Some uid →
    find_session d uid = Some (i, s) →
    state_of s = VStr "ask_note" →
    data_of s = VDict a →
    effect upd (Some d)
      (Some (let d' := insert_doc "appointment" (booking_of uid (text_of upd) a) d in
             if completed
             then set_fields "botsession" i {[ "state" := VStr "complete" ]} d'
             else d'))
      [FindOne "botsession"; InsertOne "appointment"; UpdateOne "botsession"].

(** Every session holds a [dict] as its answers, as [BotSession.data]
    declares. *)
Definition sessions_typed (d : Store) : Prop :=
  Forall (λ s, ∃ a, data_of s = VDict a) (sessions d).

(** ** Every outcome of [bot_update] *)

(** The prompting states with the answer they store, the next state and
    the reply, as the branches of [bot_update] have them. *)
Definition prompts : list (string * string * string * string) :=
  [ ("ask_name", "client_name", "ask_phone", reply_ask_phone);
    ("ask_phone", "phone", "ask_date", reply_ask_date);
    ("ask_date", "preferred_date", "ask_time", reply_ask_time);
    ("ask_time", "preferred_time", "ask_note", reply_ask_note) ].

(** The states in which [bot_update] assigns into [data]. *)
Definition writing_states : list string :=
  ["ask_name"; "ask_phone"; "ask_date"; "ask_time"; "ask_note"].

(** The outcome of a call, branch by branch, for every request, fault plan
    and store. *)
Inductive handled (upd : TelegramUpdate) (flt : Faults)
  : option Store → Outcome Doc → Prop :=
| handled_unconfigured :
    handled upd flt None
      (MkOutcome (inl (HTTPException 500 "Database not configured")) None [])
| handled_no_user d :
    user_id upd = None →
    handled upd flt (Some d)
      (MkOutcome (inl (HTTPException 400 "user_id required")) (Some d) [])
| handled_find_failed d :
    flt (FindOne "botsession") = true →
    handled upd flt (Some d)
      (MkOutcome (inl (PersistenceError (FindOne "botsession"))) (Some d)
         [FindOne "botsession"])
| handled_new_failed d uid :
    user_id upd = Some uid →
    find_session d uid = None →
    flt (InsertOne "botsession") = true →
    handled upd flt (Some d)
      (MkOutcome (inl (PersistenceError (InsertOne "botsession"))) (Some d)
         [FindOne "botsession"; InsertOne "botsession"])
| handled_new d uid :
    user_id upd = Some uid →
    find_session d uid = None →
    handled upd flt (Some d)
      (MkOutcome (inr (response reply_greeting (VStr "ask_name")))
         (Some (insert_doc "botsession" (new_session uid) d))
         [FindOne "botsession"; InsertOne "botsession"; FindOne "botsession"])
| handled_name_again d uid i s :
    user_id upd = Some uid →
    find_session d uid = Some (i, s) →
    state_of s = VStr "ask_name" →
    text_of upd = "" →
    handled upd flt (Some d)
      (MkOutcome (inr (response reply_name_again (VStr "ask_name"))) (Some d)
         [FindOne "botsession"])
| handled_not_a_dict d uid i s tag :
    user_id upd = Some uid →
    find_session d uid = Some (i, s) →
    state_of s = VStr tag →
    tag ∈ writing_states →
    (tag = "ask_name" → text_of upd ≠ "") →
    (∀ a, data_of s ≠ VDict a) →
    handled upd flt (Some d)
      (MkOutcome (inl TypeError) (Some d) [FindOne "botsession"])
| handled_step_failed d uid i s a tag key next prompt :
    user_id upd = Some uid →
    find_session d uid = Some (i, s) →
    state_of s = VStr tag →
    data_of s = VDict a →
    (tag, key, next, prompt) ∈ prompts →
    (tag = "ask_name" → text_of upd ≠ "") →
    flt (UpdateOne "botsession") = true →
    handled upd flt (Some d)
      (MkOutcome (inl (PersistenceError (UpdateOne "botsession"))) (Some d)
         [FindOne "botsession"; UpdateOne "botsession"])
| handled_step d uid i s a tag key next prompt :
    user_id upd = Some uid →
    find_session d uid = Some (i, s) →
    state_of s = VStr tag →
    data_of s = VDict a →
    (tag, key, next, prompt) ∈ prompts →
    (tag = "ask_name" → text_of upd ≠ "") →
    handled upd flt (Some d)
      (MkOutcome (inr (response prompt (VStr next)))
         (Some (set_fields "botsession" i
                  (set_state_data next (VDict (<[key := VStr (text_of upd)]> a)))
                  d))
         [FindOne "botsession"; UpdateOne "botsession"])
| handled_booking_failed d uid i s a :
    user_id upd = Some uid →
    find_session d uid = Some (i, s) →
    state_of s = VStr "ask_note" →
    data_of s = VDict a →
    flt (InsertOne "appointment") = true →
    handled upd flt (Some d)
      (MkOutcome (inl (PersistenceError (InsertOne "appointment"))) (Some d)
         [FindOne "botsession"; InsertOne "appointment"])
| handled_booked_only d uid i s a :
    user_id upd = Some uid →
    find_session d uid = Some (i, s) →
    state_of s = VStr "ask_note" →
    data_of s = VDict a →
    flt (UpdateOne "botsession") = true →
    handled upd flt (Some d)
      (MkOutcome (inl (PersistenceError (UpdateOne "botsession")))
         (Some (insert_doc "appointment" (booking_of uid (text_of upd) a) d))
         [FindOne "botsession"; InsertOne "appointment"; UpdateOne "botsession"])
| handled_completed d uid i s a :
    user_id upd = Some uid →
    find_session d uid = Some (i, s) →
    state_of s = VStr "ask_note" →
    data_of s = VDict a →
    handled upd flt (Some d)
      (MkOutcome
         (inr (response (reply_done (HexString.of_nat (List.length (bookings d))))
                 (VStr "complete")))
         (Some (set_fields "botsession" i {[ "state" := VStr "complete" ]}
                  (insert_doc "appointment" (booking_of uid (text_of upd) a) d)))
         [FindOne "botsession"; InsertOne "appointment"; UpdateOne "botsession"])
| handled_fallback d uid i s :
    user_id upd = Some uid →
    find_session d uid = Some (i, s) →
    (∀ tag, tag ∈ writing_states → state_of s ≠ VStr tag) →
    handled upd flt (Some d)
      (MkOutcome (inr (response reply_fallback (VStr "ask_name"))) (Some d)
         [FindOne "botsession"]).

(** Calls in a row, each with its own fault plan. *)
Fixpoint run_with (calls : list (Faults * TelegramUpdate)) (db : option Store)
  : option Store :=
  match calls with
  | [] => db
  | (flt, u) :: rest => run_with rest (store (bot_update u flt db))
  end.

(** ** Invariants of the stored sessions and bookings *)

(** No two sessions belong to the same user. *)
Definition one_session_per_user (d : Store) : Prop :=
  ∀ uid i j s s',
    sessions d !! i = Some s → sessions d !! j = Some s' →
    has_user uid s = true → has_user uid s' = true → i = j.

(** The answers hold a string under [key]. *)
Definition answered (a : Doc) (key : string) : Prop :=
  ∃ t, a !! key = Some (VStr t).

(** The answers hold a non-empty name. *)
Definition named (a : Doc) : Prop :=
  ∃ t, a !! "client_name" = Some (VStr t) ∧ t ≠ "".

(** The answers a session in state [tag] has collected on the way there. *)
Definition answers_for (tag : string) (a : Doc) : Prop :=
  (tag ∈ ["ask_phone"; "ask_date"; "ask_time"; "ask_note"; "complete"] →
     named a) ∧
  (tag ∈ ["ask_date"; "ask_time"; "ask_note"; "complete"] →
     answered a "phone") ∧
  (tag ∈ ["ask_time"; "ask_note"; "complete"] → answered a "preferred_date") ∧
  (tag ∈ ["ask_note"; "complete"] → answered a "preferred_time").

Definition session_consistent (s : Doc) : Prop :=
  ∃ a, data_of s = VDict a ∧ ∀ tag, state_of s = VStr tag → answers_for tag a.

(** A booking as the dialogue builds it. *)
Definition bot_booking (r : Doc) : Prop :=
  named r ∧ answered r "phone" ∧ answered r "preferred_date" ∧
  answered r "preferred_time" ∧ answered r "note" ∧
  r !! "source" = Some (VStr "bot") ∧
  ∃ uid, r !! "telegram_user_id" = Some (VInt uid).

Definition store_consistent (d : Store) : Prop :=
  Forall session_consistent (sessions d) ∧ Forall bot_booking (bookings d).

(** Whether the session a user's messages find is [complete]. *)
Definition is_complete (d : Store) (uid : Z) : bool :=
  match find_session d uid with
  | Some (_, s) => eq_str (state_of s) "complete"
  | None => false
  end.

(** The bookings that carry the id of a user. *)
Definition bookings_of (d : Store) (uid : Z) : list Doc :=
  filter (λ r, has_user uid r = true) (bookings d).

(** A user has one booking when the session is [complete], none before. *)
Definition booked_once (d : Store) : Prop :=
  ∀ uid, List.length (bookings_of d uid) = if is_complete d uid then 1 else 0.

(** ** The other endpoints of [main.py] *)

(** The models of [schemas.py] that the endpoints below take: a validated
    request body, field by field. *)
Module schemas.

Record Appointment := {
  client_name : string;
  phone : option string;
  telegram_user_id : option Z;
  service_id : option string;
  preferred_date : option string;
  preferred_time : option string;
  note : option string;
  status : string;
  source : string;
}.

Record PortfolioItem := {
  title : string;
  image_url : string;
  style : option string;
  description : option string;
  featured : bool;
}.

End schemas.

(** An optional field as [model_dump] gives it: the value or [None]. *)
Definition opt_str (x : option string) : Value :=
  match x with
  | Some s => VStr s
  | None => VNone
  end.

Definition opt_int (x : option Z) : Value :=
  match x with
  | Some z => VInt z
  | None => VNone
  end.

(** [payload.model_dump()] for an [Appointment] *)
Definition Appointment_model_dump (payload : schemas.Appointment) : Doc :=
  {[ "client_name" := VStr (schemas.client_name payload);
     "phone" := opt_str (schemas.phone payload);
     "telegram_user_id" := opt_int (schemas.telegram_user_id payload);
     "service_id" := opt_str (schemas.service_id payload);
     "preferred_date" := opt_str (schemas.preferred_date payload);
     "preferred_time" := opt_str (schemas.preferred_time payload);
     "note" := opt_str (schemas.note payload);
     "status" := VStr (schemas.status payload);
     "source" := VStr (schemas.source payload) ]}.

(** The fields of [Appointment]. *)
Definition Appointment_fields : list string :=
  ["client_name"; "phone"; "telegram_user_id"; "service_id"; "preferred_date";
   "preferred_time"; "note"; "status"; "source"].

(** [Appointment(client_name=name)]: every other field at its default. *)
Definition Appointment_of_name (name : string) : schemas.Appointment :=
  {| schemas.client_name := name; schemas.phone := None;
     schemas.telegram_user_id := None; schemas.service_id := None;
     schemas.preferred_date := None; schemas.preferred_time := None;
     schemas.note := None; schemas.status := "new"; schemas.source := "site" |}.

(** The fields of a [PortfolioItem]. *)
Definition PortfolioItem_model_dump (payload : schemas.PortfolioItem) : Doc :=
  {[ "title" := VStr (schemas.title payload);
     "image_url" := VStr (schemas.image_url payload);
     "style" := opt_str (schemas.style payload);
     "description" := opt_str (schemas.description payload);
     "featured" := VBool (schemas.featured payload) ]}.

(** A handler raises what a helper without store access raised. *)
Definition raising {A} (r : exn + A) : M A :=
  match r with
  | inl e => raise e
  | inr a => ret a
  end.

(** Modelled from the spec: find-by-filter on a collection, as
    [db[c].find(filter)] and the absent [get_documents(c, filter)] do it: the
    documents that match, in stored order, each with its [_id].  Without a
    store [db[c]] is a [TypeError].  Bulk reads are outside the fault
    plan. *)
Definition find (c : string) (matches : Doc → bool) : M (list (nat * Doc)) :=
  λ _ db,
    match db with
    | None => MkOutcome (inl TypeError) db []
    | Some d =>
        MkOutcome
          (inr (filter (λ it, matches it.2 = true) (imap pair (collection d c))))
          db []
    end.

Definition get_documents (c : string) (matches : Doc → bool)
  : M (list (nat * Doc)) :=
  find c matches.

(** The filters [{}] and [{"is_active": True}]. *)
Definition any_doc (doc : Doc) : bool := true.

Definition is_active (doc : Doc) : bool :=
  match doc !! "is_active" with
  | Some (VBool true) => true
  | _ => false
  end.

(** [it["id"] = str(it.pop("_id"))] on a document as the store returned
    it. *)
Definition with_id (it : nat * Doc) : Doc :=
  <["id" := VStr (HexString.of_nat it.1)]> it.2.

Definition list_services : M (list Doc) :=
  items ← get_documents "tattooservice" is_active;
  mret (with_id <$> items).

Definition list_portfolio : M (list Doc) :=
  items ← get_documents "portfolioitem" any_doc;
  mret (with_id <$> items).

Definition create_appointment (payload : schemas.Appointment) : M Doc :=
  let data := Appointment_model_dump payload in
  inserted_id ← create_document "appointment" data;
  mret {[ "id" := VStr inserted_id ]}.

Definition admin_list_appointments (env : Environ) (password : string)
  : M (list Doc) :=
  raising (require_admin env password);;
  items ← get_documents "appointment" any_doc;
  mret (with_id <$> items).

(** Modelled from the spec: handed a model instead of a dict,
    [create_document] stores the fields of the model. *)
Definition admin_add_portfolio (env : Environ)
    (payload : schemas.PortfolioItem) (password : string) : M Doc :=
  raising (require_admin env password);;
  inserted_id ← create_document "portfolioitem" (PortfolioItem_model_dump payload);
  mret {[ "id" := VStr inserted_id ]}.

(** The loop of [export_backup] over the collections still to dump. *)
Fixpoint export_collections (collections : list string)
    (dump : gmap string (list Doc)) : M (gmap string (list Doc)) :=
  match collections with
  | [] => mret dump
  | col :: rest =>
      docs ← find col any_doc;
      export_collections rest (<[col := with_id <$> docs]> dump)
  end.

Definition export_backup (env : Environ) (password : string)
  : M (gmap string (list Doc)) :=
  raising (require_admin env password);;
  let collections := ["tattooservice"; "portfolioitem"; "appointment"; "botsession"] in
  export_collections collections ∅.

(** What [find] with the empty filter gives, with the ids in place. *)
Definition listed (c : string) (d : Store) : list Doc :=
  imap (λ i doc, with_id (i, doc)) (collection d c).

(** ** [strip] on examples *)

Example strip_trims_both_ends : strip "  Alex Doe " = "Alex Doe".
Proof. reflexivity. Qed.

Example strip_empty : strip "" = "".
Proof. reflexivity. Qed.

(** Tab, line feed, carriage return and space. *)
Example strip_ascii_space :
  strip (String "009" (String "010" (String "013" " "))) = "".
Proof. reflexivity. Qed.

(** U+00A0 and U+3000, two and three bytes in UTF-8, around a letter. *)
Example strip_unicode_space :
  strip (String "194" (String "160"
           (String "x" (String "227" (String "128" (String "128" ""))))))
  = "x".
Proof. reflexivity. Qed.

(** The bytes of a Cyrillic letter are not white space. *)
Example strip_keeps_text : strip reply_ask_time = reply_ask_time.
Proof. reflexivity. Qed.

(** ** Running the monad *)

Section Run.
Context {A B : Type} (k : A → M B) (flt : Faults).

Lemma run_ret a db : bind (ret a) k flt db = k a flt db.
Proof. unfold bind, ret. simpl. by destruct (k a flt db). Qed.

Lemma run_raise e db : bind (raise e) k flt db = MkOutcome (inl e) db [].
Proof. reflexivity. Qed.

Lemma run_store_op_ok op (f : Store → A * Store) d :
  flt op = false →
  bind (store_op op f) k flt (Some d) =
    logged op (k (f d).1 flt (Some (f d).2)).
Proof.
  intros Hf. unfold bind, store_op, logged. rewrite Hf.
  destruct (f d) as [a d']. reflexivity.
Qed.

Lemma run_store_op_fail op (f : Store → A * Store) db :
  flt op = true →
  bind (store_op op f) k flt db =
    MkOutcome (inl (PersistenceError op)) db [op].
Proof. intros Hf. unfold bind, store_op. by rewrite Hf. Qed.
End Run.

Lemma ret_run {A} (a : A) flt db : ret a flt db = MkOutcome (inr a) db [].
Proof. reflexivity. Qed.

Lemma raise_run {A} e flt db : @raise A e flt db = MkOutcome (inl e) db [].
Proof. reflexivity. Qed.

Lemma run_db_is_None {B} (k : bool → M B) flt db :
  bind db_is_None k flt db =
    k (match db with None => true | Some _ => false end) flt db.
Proof. unfold bind, db_is_None. simpl. by destruct (k _ flt db). Qed.

Lemma ObjectId_str n : ObjectId (HexString.of_nat n) = ret n.
Proof.
  unfold ObjectId.
  rewrite HexString.to_nat_of_nat, String.eqb_refl. reflexivity.
Qed.

(** Symbolic execution of [bot_update]: one monad law at a time, with the
    facts at hand about the fault plan. *)
Ltac exec :=
  unfold bot_update, mbind, M_bind;
  repeat first
    [ rewrite run_ret | rewrite run_raise | rewrite run_db_is_None
    | rewrite ObjectId_str
    | rewrite run_store_op_ok by assumption
    | rewrite run_store_op_fail by assumption
    | progress cbn [logged result store ops fst snd setitem eq_str
                    String.eqb Ascii.eqb Bool.eqb]
    | progress unfold find_one_by_user, find_one_by_id, create_document,
        update_one
    | rewrite ret_run | rewrite raise_run ].

(** ** Facts about the store *)

Lemma eq_str_spec v s : eq_str v s = true ↔ v = VStr s.
Proof.
  destruct v; simpl; try (split; [done | congruence]).
  rewrite String.eqb_eq. split; congruence.
Qed.

Lemma eq_str_false v s : v ≠ VStr s → eq_str v s = false.
Proof.
  intros H. destruct (eq_str v s) eqn:E; [|done].
  by apply eq_str_spec in E.
Qed.

Lemma collection_insert c l (d : Store) : collection (<[c := l]> d) c = l.
Proof. unfold collection. by rewrite lookup_insert_eq. Qed.

Lemma collection_insert_ne c c' l (d : Store) :
  c ≠ c' → collection (<[c := l]> d) c' = collection d c'.
Proof. intros H. unfold collection. by rewrite lookup_insert_ne. Qed.

Lemma collection_insert_doc c doc d :
  collection (insert_doc c doc d) c = (collection d c ++ [doc])%list.
Proof. apply collection_insert. Qed.

Lemma collection_insert_doc_ne c c' doc d :
  c ≠ c' → collection (insert_doc c doc d) c' = collection d c'.
Proof. apply collection_insert_ne. Qed.

Lemma collection_set_fields c oid patch doc d :
  collection d c !! oid = Some doc →
  collection (set_fields c oid patch d) c = <[oid := patch ∪ doc]> (collection d c).
Proof. intros H. unfold set_fields. rewrite H. apply collection_insert. Qed.

Lemma collection_set_fields_ne c c' oid patch d :
  c ≠ c' → collection (set_fields c oid patch d) c' = collection d c'.
Proof.
  intros H. unfold set_fields.
  destruct (collection d c !! oid); [by apply collection_insert_ne | done].
Qed.

Lemma find_session_lookup d uid i s :
  find_session d uid = Some (i, s) → sessions d !! i = Some s.
Proof. intros H. by apply list_find_Some in H as (? & _ & _). Qed.

(** A patch that leaves [telegram_user_id] alone does not change which
    session a user's messages find. *)
Lemma find_session_set_fields d uid i s patch :
  find_session d uid = Some (i, s) →
  patch !! "telegram_user_id" = None →
  find_session (set_fields "botsession" i patch d) uid = Some (i, patch ∪ s).
Proof.
  intros Hs Hp. unfold find_session in *.
  apply list_find_Some in Hs as (Hi & Hu & Hbefore).
  unfold sessions in *. rewrite (collection_set_fields _ _ _ s) by done.
  apply list_find_Some. split_and!.
  - apply list_lookup_insert_eq. by eapply lookup_lt_Some.
  - unfold has_user in *.
    by rewrite lookup_union_r.
  - intros j y Hj Hlt. rewrite list_lookup_insert_ne in Hj by lia. eauto.
Qed.

(** Another collection changing does not change it either. *)
Lemma find_session_insert_doc c doc d uid :
  c ≠ "botsession" →
  find_session (insert_doc c doc d) uid = find_session d uid.
Proof.
  intros H. unfold find_session, sessions.
  by rewrite collection_insert_doc_ne.
Qed.

Lemma has_user_new_session uid : has_user uid (new_session uid) = true.
Proof.
  unfold has_user, new_session. rewrite lookup_insert_eq. apply Z.eqb_refl.
Qed.

(** A new session is found by its user, who had none. *)
Lemma find_session_new d uid :
  find_session d uid = None →
  find_session (insert_doc "botsession" (new_session uid) d) uid =
    Some (List.length (sessions d), new_session uid).
Proof.
  intros H. unfold find_session, sessions in *.
  rewrite collection_insert_doc, list_find_app_r by done.
  cbn. rewrite decide_True by apply has_user_new_session.
  reflexivity.
Qed.

(** ** The branches of [bot_update], one equation each *)

Lemma bot_update_unconfigured upd flt :
  bot_update upd flt None =
    MkOutcome (inl (HTTPException 500 "Database not configured")) None [].
Proof. by exec. Qed.

Lemma bot_update_no_user upd flt d :
  user_id upd = None →
  bot_update upd flt (Some d) =
    MkOutcome (inl (HTTPException 400 "user_id required")) (Some d) [].
Proof. intros Hu. exec. rewrite Hu. by exec. Qed.

Lemma bot_update_new_session upd flt d uid :
  user_id upd = Some uid →
  flt (FindOne "botsession") = false →
  flt (InsertOne "botsession") = false →
  find_session d uid = None →
  bot_update upd flt (Some d) =
    MkOutcome (inr (response reply_greeting (VStr "ask_name")))
      (Some (insert_doc "botsession" (new_session uid) d))
      [FindOne "botsession"; InsertOne "botsession"; FindOne "botsession"].
Proof.
  intros Hu Hf Hi Hs. unfold find_session, sessions in Hs.
  exec. rewrite Hu. exec. rewrite Hs. exec.
  rewrite collection_insert_doc, lookup_app_r, Nat.sub_diag by done.
  reflexivity.
Qed.

Section Found.
Variables (upd : TelegramUpdate) (flt : Faults) (d : Store).
Variables (uid : Z) (i : nat) (s : Doc).
Hypothesis Huser : user_id upd = Some uid.
Hypothesis Hfind : flt (FindOne "botsession") = false.
Hypothesis Hsession : find_session d uid = Some (i, s).

Ltac into_session :=
  unfold find_session, sessions, state_of, data_of, text_of,
    booking_of in *;
  exec; rewrite Huser; exec; rewrite Hsession; exec.

Lemma bot_update_name_empty :
  state_of s = VStr "ask_name" →
  text_of upd = "" →
  bot_update upd flt (Some d) =
    MkOutcome (inr (response reply_name_again (VStr "ask_name"))) (Some d)
      [FindOne "botsession"].
Proof.
  intros Hst Ht. into_session. rewrite Hst, Ht. by exec.
Qed.

Lemma bot_update_name a :
  state_of s = VStr "ask_name" →
  text_of upd ≠ "" →
  data_of s = VDict a →
  flt (UpdateOne "botsession") = false →
  bot_update upd flt (Some d) =
    MkOutcome (inr (response reply_ask_phone (VStr "ask_phone")))
      (Some (set_fields "botsession" i
               (set_state_data "ask_phone"
                  (VDict (<["client_name" := VStr (text_of upd)]> a))) d))
      [FindOne "botsession"; UpdateOne "botsession"].
Proof.
  intros Hst Ht Hd Hu. apply String.eqb_neq in Ht.
  into_session. rewrite Hst, Hd. exec. rewrite Ht. by exec.
Qed.

Lemma bot_update_phone a :
  state_of s = VStr "ask_phone" →
  data_of s = VDict a →
  flt (UpdateOne "botsession") = false →
  bot_update upd flt (Some d) =
    MkOutcome (inr (response reply_ask_date (VStr "ask_date")))
      (Some (set_fields "botsession" i
               (set_state_data "ask_date" (VDict (<["phone" := VStr (text_of upd)]> a)))
               d))
      [FindOne "botsession"; UpdateOne "botsession"].
Proof.
  intros Hst Hd Hu. into_session. rewrite Hst, Hd. by exec.
Qed.

Lemma bot_update_date a :
  state_of s = VStr "ask_date" →
  data_of s = VDict a →
  flt (UpdateOne "botsession") = false →
  bot_update upd flt (Some d) =
    MkOutcome (inr (response reply_ask_time (VStr "ask_time")))
      (Some (set_fields "botsession" i
               (set_state_data "ask_time"
                  (VDict (<["preferred_date" := VStr (text_of upd)]> a))) d))
      [FindOne "botsession"; UpdateOne "botsession"].
Proof.
  intros Hst Hd Hu. into_session. rewrite Hst, Hd. by exec.
Qed.

Lemma bot_update_time a :
  state_of s = VStr "ask_time" →
  data_of s = VDict a →
  flt (UpdateOne "botsession") = false →
  bot_update upd flt (Some d) =
    MkOutcome (inr (response reply_ask_note (VStr "ask_note")))
      (Some (set_fields "botsession" i
               (set_state_data "ask_note"
                  (VDict (<["preferred_time" := VStr (text_of upd)]> a))) d))
      [FindOne "botsession"; UpdateOne "botsession"].
Proof.
  intros Hst Hd Hu. into_session. rewrite Hst, Hd. by exec.
Qed.

Lemma bot_update_note a :
  state_of s = VStr "ask_note" →
  data_of s = VDict a →
  flt (InsertOne "appointment") = false →
  flt (UpdateOne "botsession") = false →
  bot_update upd flt (Some d) =
    MkOutcome
      (inr (response (reply_done (HexString.of_nat (List.length (bookings d))))
              (VStr "complete")))
      (Some (set_fields "botsession" i {[ "state" := VStr "complete" ]}
               (insert_doc "appointment" (booking_of uid (text_of upd) a) d)))
      [FindOne "botsession"; InsertOne "appointment"; UpdateOne "botsession"].
Proof.
  intros Hst Hd Hi Hu. into_session. rewrite Hst, Hd. by exec.
Qed.

Lemma bot_update_note_insert_fails a :
  state_of s = VStr "ask_note" →
  data_of s = VDict a →
  flt (InsertOne "appointment") = true →
  bot_update upd flt (Some d) =
    MkOutcome (inl (PersistenceError (InsertOne "appointment"))) (Some d)
      [FindOne "botsession"; InsertOne "appointment"].
Proof.
  intros Hst Hd Hi. into_session. rewrite Hst, Hd. by exec.
Qed.

Lemma bot_update_note_update_fails a :
  state_of s = VStr "ask_note" →
  data_of s = VDict a →
  flt (InsertOne "appointment") = false →
  flt (UpdateOne "botsession") = true →
  bot_update upd flt (Some d) =
    MkOutcome (inl (PersistenceError (UpdateOne "botsession")))
      (Some (insert_doc "appointment" (booking_of uid (text_of upd) a) d))
      [FindOne "botsession"; InsertOne "appointment"; UpdateOne "botsession"].
Proof.
  intros Hst Hd Hi Hu. into_session. rewrite Hst, Hd. by exec.
Qed.

(** Any other state tag, [complete] included, takes the last [return]. *)
Lemma bot_update_other :
  state_of s ≠ VStr "ask_name" →
  state_of s ≠ VStr "ask_phone" →
  state_of s ≠ VStr "ask_date" →
  state_of s ≠ VStr "ask_time" →
  state_of s ≠ VStr "ask_note" →
  bot_update upd flt (Some d) =
    MkOutcome (inr (response reply_fallback (VStr "ask_name"))) (Some d)
      [FindOne "botsession"].
Proof.
  intros H1 H2 H3 H4 H5.
  apply eq_str_false in H1, H2, H3, H4, H5.
  into_session. rewrite H1, H2, H3, H4, H5. by exec.
Qed.
End Found.

(** ** What a transition leaves in the session *)

Lemma state_of_set_state_data tag data s :
  state_of (set_state_data tag data ∪ s) = VStr tag.
Proof.
  unfold state_of, get, set_state_data.
  by rewrite (lookup_union_Some_l _ _ _ (VStr tag)) by apply lookup_insert_eq.
Qed.

Lemma data_of_set_state_data tag data s :
  data_of (set_state_data tag data ∪ s) = data.
Proof.
  unfold data_of, get, set_state_data.
  rewrite (lookup_union_Some_l _ _ _ data); [done |].
  rewrite lookup_insert_ne by done. apply lookup_singleton_eq.
Qed.

Lemma set_state_data_keeps_user tag data :
  set_state_data tag data !! "telegram_user_id" = None.
Proof.
  unfold set_state_data.
  rewrite lookup_insert_ne by done. by apply lookup_singleton_ne.
Qed.

Lemma state_of_set_complete s :
  state_of ({[ "state" := VStr "complete" ]} ∪ s) = VStr "complete".
Proof.
  unfold state_of, get.
  by rewrite (lookup_union_Some_l _ _ _ (VStr "complete"))
    by apply lookup_singleton_eq.
Qed.

Lemma data_of_set_complete s :
  data_of ({[ "state" := VStr "complete" ]} ∪ s) = data_of s.
Proof.
  unfold data_of, get.
  by rewrite lookup_union_r by by apply lookup_singleton_ne.
Qed.

(** After [update_one] on the session a user's messages find: that session
    carries the patch, every other session and every booking is as
    before. *)
Lemma set_fields_session d uid i s patch :
  find_session d uid = Some (i, s) →
  patch !! "telegram_user_id" = None →
  let d' := set_fields "botsession" i patch d in
  find_session d' uid = Some (i, patch ∪ s) ∧
  sessions d' = <[i := patch ∪ s]> (sessions d) ∧
  bookings d' = bookings d.
Proof.
  intros Hs Hp d'. split_and!.
  - by apply find_session_set_fields.
  - apply collection_set_fields. by eapply find_session_lookup.
  - by apply collection_set_fields_ne.
Qed.

(** One step of the dialogue that stores [text] under [key] and moves the
    session to [next]; shared by the four prompting states. *)
Lemma advanced_session d uid i s next key text a :
  find_session d uid = Some (i, s) →
  let d' := set_fields "botsession" i
              (set_state_data next (VDict (<[key := VStr text]> a))) d in
  ∃ s', find_session d' uid = Some (i, s') ∧
        state_of s' = VStr next ∧
        data_of s' = VDict (<[key := VStr text]> a) ∧
        sessions d' = <[i := s']> (sessions d) ∧
        bookings d' = bookings d.
Proof.
  intros Hs d'.
  destruct (set_fields_session d uid i s
              (set_state_data next (VDict (<[key := VStr text]> a))) Hs
              (set_state_data_keeps_user _ _)) as (Hf & Hss & Hb).
  eexists. split_and!; [exact Hf | | | exact Hss | exact Hb].
  - apply state_of_set_state_data.
  - apply data_of_set_state_data.
Qed.

(** ** The claims *)

(** C7: on the first message of a user who has no session, [bot_update]
    creates exactly one session, in state [ask_name] with empty answers,
    creates no booking, runs no transition (the outcome is the same
    whatever the message says) and replies with the greeting and state
    [ask_name]. *)
Theorem first_contact_creates_session upd flt d uid :
  user_id upd = Some uid →
  find_session d uid = None →
  flt (FindOne "botsession") = false →
  flt (InsertOne "botsession") = false →
  let o := bot_update upd flt (Some d) in
  result o = inr (response reply_greeting (VStr "ask_name")) ∧
  ops o = [FindOne "botsession"; InsertOne "botsession"; FindOne "botsession"] ∧
  (∃ d', store o = Some d' ∧
         sessions d' = (sessions d ++ [new_session uid])%list ∧
         find_session d' uid = Some (List.length (sessions d), new_session uid) ∧
         bookings d' = bookings d) ∧
  state_of (new_session uid) = VStr "ask_name" ∧
  data_of (new_session uid) = VDict ∅ ∧
  (∀ text name, bot_update {| message_text := text; user_id := Some uid;
                              username := name |} flt (Some d) = o).
Proof.
  intros Hu Hs Hf Hi o. subst o.
  rewrite (bot_update_new_session upd flt d uid) by done. cbn [result store ops].
  split_and!; try done.
  - eexists. split_and!; [done | | |].
    + apply collection_insert_doc.
    + by apply find_session_new.
    + by apply collection_insert_doc_ne.
  - intros text name. by apply bot_update_new_session.
Qed.

Lemma first_contact_creates_session_witness :
  find_session ∅ 42 = None ∧
  result (bot_update (msg 42 "hello") no_faults (Some ∅)) =
    inr (response reply_greeting (VStr "ask_name")).
Proof.
  split; [reflexivity |].
  apply (first_contact_creates_session (msg 42 "hello") no_faults ∅ 42);
    reflexivity.
Defined.

(** C5: in state [ask_name], a message that is empty after trimming leaves
    the store as it is (state and answers untouched) and is answered with
    the reprompt; any other message sets [client_name] to the trimmed text
    and moves the session to [ask_phone]. *)
Theorem ask_name_requires_text upd flt d uid i s :
  user_id upd = Some uid →
  find_session d uid = Some (i, s) →
  state_of s = VStr "ask_name" →
  flt (FindOne "botsession") = false →
  let o := bot_update upd flt (Some d) in
  (text_of upd = "" →
     o = MkOutcome (inr (response reply_name_again (VStr "ask_name"))) (Some d)
           [FindOne "botsession"]) ∧
  (text_of upd ≠ "" →
     ∀ a, data_of s = VDict a →
          flt (UpdateOne "botsession") = false →
          result o = inr (response reply_ask_phone (VStr "ask_phone")) ∧
          ops o = [FindOne "botsession"; UpdateOne "botsession"] ∧
          ∃ d' s', store o = Some d' ∧
                   find_session d' uid = Some (i, s') ∧
                   state_of s' = VStr "ask_phone" ∧
                   data_of s' = VDict (<["client_name" := VStr (text_of upd)]> a) ∧
                   sessions d' = <[i := s']> (sessions d) ∧
                   bookings d' = bookings d).
Proof.
  intros Hu Hs Hst Hf o. subst o. split.
  - intros Ht. by eapply bot_update_name_empty.
  - intros Ht a Ha Hup.
    rewrite (bot_update_name upd flt d uid i s Hu Hf Hs a) by done.
    cbn [result store ops]. split_and!; [done | done |].
    destruct (advanced_session d uid i s "ask_phone" "client_name"
                (text_of upd) a Hs) as (s' & ?).
    eexists _, s'. by split.
Qed.

Lemma ask_name_requires_text_witness :
  text_of (msg 42 "   ") = "" ∧
  bot_update (msg 42 "   ") no_faults (Some (one_session 42 "ask_name" ∅)) =
    MkOutcome (inr (response reply_name_again (VStr "ask_name")))
      (Some (one_session 42 "ask_name" ∅)) [FindOne "botsession"].
Proof.
  split; [reflexivity |].
  apply (ask_name_requires_text (msg 42 "   ") no_faults
           (one_session 42 "ask_name" ∅) 42 0 (session_at 42 "ask_name" ∅));
    reflexivity.
Defined.

(** C6, the claim as stated fails: in state [ask_phone] the message
    [" 555 "] is not stored as it was sent; the answer [phone] is the
    trimmed ["555"]. *)
Lemma ask_phone_stores_trimmed_text :
  let d := one_session 42 "ask_phone" {[ "client_name" := VStr "Alex" ]} in
  let o := bot_update (msg 42 " 555 ") no_faults (Some d) in
  ∃ d' s' a',
    store o = Some d' ∧
    find_session d' 42 = Some (0, s') ∧
    state_of s' = VStr "ask_date" ∧
    data_of s' = VDict a' ∧
    a' !! "phone" = Some (VStr "555") ∧
    a' !! "phone" ≠ Some (VStr " 555 ").
Proof.
  eexists _, _, _. split_and!; [reflexivity .. | discriminate].
Qed.

(** C6, amended: in each of the states [ask_phone], [ask_date] and
    [ask_time], every message (absent and empty text included) moves the
    session to the next state of [ask_phone], [ask_date], [ask_time],
    [ask_note], and the message text with the white space at both ends
    removed is stored under [phone], [preferred_date] or [preferred_time]
    respectively; the other answers, the other sessions and the bookings
    are as before. *)
Theorem free_text_states_advance upd flt d uid i s a tag key next prompt :
  user_id upd = Some uid →
  find_session d uid = Some (i, s) →
  data_of s = VDict a →
  flt (FindOne "botsession") = false →
  flt (UpdateOne "botsession") = false →
  (tag, key, next, prompt) ∈
    [ ("ask_phone", "phone", "ask_date", reply_ask_date);
      ("ask_date", "preferred_date", "ask_time", reply_ask_time);
      ("ask_time", "preferred_time", "ask_note", reply_ask_note) ] →
  state_of s = VStr tag →
  let o := bot_update upd flt (Some d) in
  result o = inr (response prompt (VStr next)) ∧
  ops o = [FindOne "botsession"; UpdateOne "botsession"] ∧
  ∃ d' s', store o = Some d' ∧
           find_session d' uid = Some (i, s') ∧
           state_of s' = VStr next ∧
           data_of s' = VDict (<[key := VStr (text_of upd)]> a) ∧
           sessions d' = <[i := s']> (sessions d) ∧
           bookings d' = bookings d.
Proof.
  intros Hu Hs Ha Hf Hup Hrow Hst o. subst o.
  destruct (advanced_session d uid i s next key (text_of upd) a Hs)
    as (s' & Hs').
  repeat (apply elem_of_cons in Hrow as [Hrow | Hrow]);
    [| | | by apply elem_of_nil in Hrow]; simplify_eq.
  - rewrite (bot_update_phone upd flt d uid i s Hu Hf Hs a) by done.
    cbn [result store ops]. split_and!; [done | done |].
    eexists _, s'. by split.
  - rewrite (bot_update_date upd flt d uid i s Hu Hf Hs a) by done.
    cbn [result store ops]. split_and!; [done | done |].
    eexists _, s'. by split.
  - rewrite (bot_update_time upd flt d uid i s Hu Hf Hs a) by done.
    cbn [result store ops]. split_and!; [done | done |].
    eexists _, s'. by split.
Qed.

Lemma free_text_states_advance_witness :
  find_session (one_session 42 "ask_date" ∅) 42 =
    Some (0, session_at 42 "ask_date" ∅) ∧
  result (bot_update (msg 42 "") no_faults (Some (one_session 42 "ask_date" ∅))) =
    inr (response reply_ask_time (VStr "ask_time")).
Proof.
  split; [reflexivity |].
  apply (free_text_states_advance (msg 42 "") no_faults
           (one_session 42 "ask_date" ∅) 42 0 (session_at 42 "ask_date" ∅) ∅
           "ask_date" "preferred_date" "ask_time" reply_ask_time);
    try reflexivity.
  apply list_elem_of_In. simpl. auto.
Defined.

(** The store after [ask_note] went through: one more booking, and the
    session marked [complete] with the answers it had. *)
Lemma finalized_store d uid i s r :
  find_session d uid = Some (i, s) →
  let d' := set_fields "botsession" i {[ "state" := VStr "complete" ]}
              (insert_doc "appointment" r d) in
  bookings d' = (bookings d ++ [r])%list ∧
  ∃ s', find_session d' uid = Some (i, s') ∧
        state_of s' = VStr "complete" ∧
        data_of s' = data_of s ∧
        sessions d' = <[i := s']> (sessions d).
Proof.
  intros Hs d'.
  assert (Hs' : find_session (insert_doc "appointment" r d) uid = Some (i, s))
    by by rewrite find_session_insert_doc.
  destruct (set_fields_session _ uid i s {[ "state" := VStr "complete" ]} Hs')
    as (Hf & Hss & Hb); [by apply lookup_singleton_ne |].
  split.
  - subst d'. rewrite Hb. apply collection_insert_doc.
  - eexists. split_and!; [exact Hf | | |].
    + apply state_of_set_complete.
    + apply data_of_set_complete.
    + subst d'. rewrite Hss. unfold sessions.
      by rewrite collection_insert_doc_ne.
Qed.

Lemma booking_of_lookup uid text a :
  let r := booking_of uid text a in
  r !! "note" = Some (VStr text) ∧
  r !! "source" = Some (VStr "bot") ∧
  r !! "telegram_user_id" = Some (VInt uid) ∧
  ∀ k, k ∉ ["note"; "source"; "telegram_user_id"] → r !! k = a !! k.
Proof.
  unfold booking_of. cbv zeta. split_and!.
  - do 2 (rewrite lookup_insert_ne by done). apply lookup_insert_eq.
  - rewrite lookup_insert_ne by done. apply lookup_insert_eq.
  - by rewrite lookup_insert_eq.
  - intros k Hk. rewrite !lookup_insert_ne; set_solver.
Qed.

(** The dialogue of the scenario answers with the states of the form in
    order. *)
Example scenario_states :
  (λ r, match r with inr doc => doc !! "state" | inl _ => None end)
    <$> results no_faults scenario (Some ∅) =
  Some <$> [VStr "ask_name"; VStr "ask_phone"; VStr "ask_date"; VStr "ask_time";
            VStr "ask_note"; VStr "complete"].
Proof. reflexivity. Qed.

(** C1, evaluated: after the scenario on an empty store there is exactly
    one booking and the session is [complete]; the booking carries the five
    answers, [source = "bot"] and the user id, and no [status] field at all:
    [bot_update] stores the answers as they are and never writes [status]. *)
Theorem bot_booking_has_no_status :
  ∃ d' r s',
    run no_faults scenario (Some ∅) = Some d' ∧
    bookings d' = [r] ∧
    r = {[ "client_name" := VStr "Alex"; "phone" := VStr "+1555";
           "preferred_date" := VStr "2025-12-01";
           "preferred_time" := VStr "14:00"; "note" := VStr "no preference";
           "source" := VStr "bot"; "telegram_user_id" := VInt 42 ]} ∧
    r !! "status" = None ∧
    find_session d' 42 = Some (0, s') ∧
    state_of s' = VStr "complete".
Proof. eexists _, _, _. split_and!; reflexivity. Qed.

(** C3, the claim as stated fails: after the transition out of [ask_note]
    the answers persisted in the session hold neither [note] nor [source]
    nor the user id; only the state tag was written. *)
Lemma ask_note_leaves_session_answers :
  let a := {[ "client_name" := VStr "Alex"; "phone" := VStr "+1555";
              "preferred_date" := VStr "2025-12-01";
              "preferred_time" := VStr "14:00" ]} in
  let o := bot_update (msg 42 "no preference") no_faults
             (Some (one_session 42 "ask_note" a)) in
  ∃ d' s',
    store o = Some d' ∧
    find_session d' 42 = Some (0, s') ∧
    state_of s' = VStr "complete" ∧
    data_of s' = VDict a ∧
    a !! "note" = None ∧ a !! "source" = None ∧ a !! "telegram_user_id" = None.
Proof. eexists _, _. split_and!; reflexivity. Qed.

(** C3, amended: in state [ask_note], for every message, the trimmed text
    as [note], [source = "bot"] and the user id are set on the answers the
    booking is built from, so the stored booking holds them next to the
    answers collected before; the session is marked [complete] and its
    persisted answers stay exactly as they were (nothing is added, nothing
    is reset). *)
Theorem ask_note_sets_booking_fields upd flt d uid i s a :
  user_id upd = Some uid →
  find_session d uid = Some (i, s) →
  state_of s = VStr "ask_note" →
  data_of s = VDict a →
  flt (FindOne "botsession") = false →
  flt (InsertOne "appointment") = false →
  flt (UpdateOne "botsession") = false →
  let o := bot_update upd flt (Some d) in
  ∃ d' r s',
    store o = Some d' ∧
    bookings d' = (bookings d ++ [r])%list ∧
    r !! "note" = Some (VStr (text_of upd)) ∧
    r !! "source" = Some (VStr "bot") ∧
    r !! "telegram_user_id" = Some (VInt uid) ∧
    (∀ k, k ∉ ["note"; "source"; "telegram_user_id"] → r !! k = a !! k) ∧
    find_session d' uid = Some (i, s') ∧
    state_of s' = VStr "complete" ∧
    data_of s' = VDict a ∧
    sessions d' = <[i := s']> (sessions d).
Proof.
  intros Hu Hs Hst Ha Hf Hi Hup o. subst o.
  rewrite (bot_update_note upd flt d uid i s Hu Hf Hs a) by done.
  cbn [result store ops].
  destruct (finalized_store d uid i s (booking_of uid (text_of upd) a) Hs)
    as (Hb & s' & Hf' & Hst' & Hd' & Hss).
  destruct (booking_of_lookup uid (text_of upd) a) as (? & ? & ? & ?).
  eexists _, _, s'. split_and!; try done. by rewrite Hd'.
Qed.

Lemma ask_note_sets_booking_fields_witness :
  state_of (session_at 42 "ask_note" ∅) = VStr "ask_note" ∧
  ∃ d' r s',
    store (bot_update (msg 42 "no") no_faults (Some (one_session 42 "ask_note" ∅)))
      = Some d' ∧
    bookings d' = (bookings (one_session 42 "ask_note" ∅) ++ [r])%list ∧
    r !! "note" = Some (VStr (text_of (msg 42 "no"))) ∧
    r !! "source" = Some (VStr "bot") ∧
    r !! "telegram_user_id" = Some (VInt 42) ∧
    (∀ k, k ∉ ["note"; "source"; "telegram_user_id"] →
          r !! k = (∅ : Doc) !! k) ∧
    find_session d' 42 = Some (0, s') ∧
    state_of s' = VStr "complete" ∧
    data_of s' = VDict ∅ ∧
    sessions d' = <[0 := s']> (sessions (one_session 42 "ask_note" ∅)).
Proof.
  split; [reflexivity |].
  apply (ask_note_sets_booking_fields (msg 42 "no") no_faults
           (one_session 42 "ask_note" ∅) 42 0 (session_at 42 "ask_note" ∅) ∅);
    reflexivity.
Defined.

(** C2, evaluated: for a session in state [complete] the response carries
    the state tag ["ask_name"], while the session found for the user is,
    and stays, in [complete]: the response does not carry the tag of the
    session. *)
Lemma complete_reply_names_ask_name :
  let d := one_session 42 "complete" ∅ in
  let o := bot_update (msg 42 "hi") no_faults (Some d) in
  ∃ s r,
    find_session d 42 = Some (0, s) ∧
    state_of s = VStr "complete" ∧
    result o = inr r ∧
    r !! "state" = Some (VStr "ask_name") ∧
    r !! "state" ≠ Some (state_of s).
Proof.
  eexists _, _. split_and!; [reflexivity .. | discriminate].
Qed.

(** What [bot_update] does for a session in state [complete]: every message
    takes the last [return], the call only reads the store, no booking is
    created and the session stays [complete], also over any number of
    further messages of that user. *)
Theorem complete_is_terminal upd flt d uid i s :
  user_id upd = Some uid →
  find_session d uid = Some (i, s) →
  state_of s = VStr "complete" →
  flt (FindOne "botsession") = false →
  bot_update upd flt (Some d) =
    MkOutcome (inr (response reply_fallback (VStr "ask_name"))) (Some d)
      [FindOne "botsession"] ∧
  ∀ updates, Forall (λ u, user_id u = Some uid) updates →
             run flt updates (Some d) = Some d.
Proof.
  intros Hu Hs Hst Hf.
  assert (Hone : ∀ u, user_id u = Some uid →
            bot_update u flt (Some d) =
              MkOutcome (inr (response reply_fallback (VStr "ask_name")))
                (Some d) [FindOne "botsession"]).
  { intros u Hu'. apply (bot_update_other u flt d uid i s Hu' Hf Hs);
      rewrite Hst; discriminate. }
  split; [by apply Hone |].
  induction 1 as [| u updates Hu' _ IH]; [done |].
  cbn [run]. by rewrite Hone.
Qed.

Lemma complete_is_terminal_witness :
  state_of (session_at 42 "complete" ∅) = VStr "complete" ∧
  bot_update (msg 42 "again") no_faults (Some (one_session 42 "complete" ∅)) =
    MkOutcome (inr (response reply_fallback (VStr "ask_name")))
      (Some (one_session 42 "complete" ∅)) [FindOne "botsession"].
Proof.
  split; [reflexivity |].
  apply (complete_is_terminal (msg 42 "again") no_faults
           (one_session 42 "complete" ∅) 42 0 (session_at 42 "complete" ∅));
    reflexivity.
Defined.

(** C10: for a session whose stored state tag is none of the six tags of
    the dialogue (the schema default ["start"], say), every message is
    answered with the fixed fallback reply and state ["ask_name"]; the call
    attempts one read and no write, and the store, with its sessions and
    bookings, is unchanged. *)
Theorem unknown_state_falls_back upd flt d uid i s tag :
  user_id upd = Some uid →
  find_session d uid = Some (i, s) →
  s !! "state" = Some tag →
  tag ∉ [VStr "ask_name"; VStr "ask_phone"; VStr "ask_date"; VStr "ask_time";
         VStr "ask_note"; VStr "complete"] →
  flt (FindOne "botsession") = false →
  let o := bot_update upd flt (Some d) in
  result o = inr (response reply_fallback (VStr "ask_name")) ∧
  store o = Some d ∧
  ops o = [FindOne "botsession"] ∧
  Forall (λ op, is_write op = false) (ops o).
Proof.
  intros Hu Hs Htag Hnot Hf o. subst o.
  rewrite (bot_update_other upd flt d uid i s Hu Hf Hs).
  - cbn [result store ops]. split_and!; try done. by repeat constructor.
  - unfold state_of, get. rewrite Htag. set_solver.
  - unfold state_of, get. rewrite Htag. set_solver.
  - unfold state_of, get. rewrite Htag. set_solver.
  - unfold state_of, get. rewrite Htag. set_solver.
  - unfold state_of, get. rewrite Htag. set_solver.
Qed.

Lemma unknown_state_falls_back_witness :
  session_at 42 "start" ∅ !! "state" = Some (VStr "start") ∧
  result (bot_update (msg 42 "hi") no_faults (Some (one_session 42 "start" ∅))) =
    inr (response reply_fallback (VStr "ask_name")).
Proof.
  split; [reflexivity |].
  apply (unknown_state_falls_back (msg 42 "hi") no_faults
           (one_session 42 "start" ∅) 42 0 (session_at 42 "start" ∅)
           (VStr "start")); try reflexivity.
  rewrite list_elem_of_In. simpl. intuition discriminate.
Defined.

(** C8, the claim as stated fails: with the store not configured, a request
    without [user_id] fails with status 500, not 400. *)
Lemma unconfigured_store_precedes_missing_user :
  let upd := {| message_text := Some "hi"; user_id := None; username := None |} in
  result (bot_update upd no_faults None) =
    inl (HTTPException 500 "Database not configured") ∧
  result (bot_update upd no_faults None) ≠
    inl (HTTPException 400 "user_id required").
Proof. split; [reflexivity | discriminate]. Qed.

(** C8, amended: a request made while the store is not configured fails
    with status 500, with or without [user_id]; a request without
    [user_id] made while the store is configured fails with status 400.
    Neither touches the store. *)
Theorem bot_update_rejects upd flt db :
  (db = None →
     bot_update upd flt db =
       MkOutcome (inl (HTTPException 500 "Database not configured")) db []) ∧
  (user_id upd = None → is_Some db →
     bot_update upd flt db =
       MkOutcome (inl (HTTPException 400 "user_id required")) db []).
Proof.
  split.
  - intros ->. apply bot_update_unconfigured.
  - intros Hu [d ->]. by apply bot_update_no_user.
Qed.

Lemma bot_update_rejects_witness :
  bot_update (msg 42 "hi") no_faults None =
    MkOutcome (inl (HTTPException 500 "Database not configured")) None [] ∧
  bot_update {| message_text := None; user_id := None; username := None |}
      no_faults (Some ∅) =
    MkOutcome (inl (HTTPException 400 "user_id required")) (Some ∅) [].
Proof.
  split.
  - apply (bot_update_rejects (msg 42 "hi") no_faults None). reflexivity.
  - apply (bot_update_rejects
             {| message_text := None; user_id := None; username := None |}
             no_faults (Some ∅)); [reflexivity | by eexists].
Defined.

(** C9: [require_admin] raises 401 Unauthorized exactly when the password
    differs from the configured secret, and returns normally otherwise;
    the secret is the value of [ADMIN_PASSWORD], or ["admin123"] when the
    variable is not set. *)
Theorem require_admin_checks_secret env password :
  (require_admin env password = inl (HTTPException 401 "Unauthorized")
     ↔ password ≠ get_admin_secret env) ∧
  (require_admin env password = inr tt ↔ password = get_admin_secret env) ∧
  (∀ secret, env !! "ADMIN_PASSWORD" = Some secret →
             get_admin_secret env = secret) ∧
  (env !! "ADMIN_PASSWORD" = None → get_admin_secret env = "admin123").
Proof.
  unfold require_admin. split_and!.
  - destruct (String.eqb_spec password (get_admin_secret env)); simpl;
      split; congruence.
  - destruct (String.eqb_spec password (get_admin_secret env)); simpl;
      split; congruence.
  - intros secret H. unfold get_admin_secret, getenv. by rewrite H.
  - intros H. unfold get_admin_secret, getenv. by rewrite H.
Qed.

Lemma require_admin_checks_secret_witness :
  get_admin_secret ∅ = "admin123" ∧
  require_admin ∅ "guess" = inl (HTTPException 401 "Unauthorized").
Proof.
  split.
  - apply (require_admin_checks_secret ∅ "guess"). reflexivity.
  - apply (require_admin_checks_secret ∅ "guess"). discriminate.
Defined.

(** ** Every call, whatever fails *)

Ltac quiet := first [ apply effect_rejected | apply effect_read ].

Ltac failed_write := apply effect_write_failed; set_solver.

Ltac advanced E :=
  apply eq_str_spec in E;
  eapply effect_advanced; [done | done | by rewrite <- E | done | set_solver].

(** Every call has one of the effects of [effect]. *)
Lemma bot_update_effect upd flt db :
  let o := bot_update upd flt db in
  effect upd db (store o) (ops o).
Proof.
  intros o. subst o. exec.
  destruct db as [d|]; exec; [| quiet].
  destruct (user_id upd) as [uid|] eqn:Hu; exec; [| quiet].
  destruct (flt (FindOne "botsession")) eqn:Hf; exec; [quiet |].
  destruct (list_find _ _) as [[i s]|] eqn:Hs; exec.
  - fold (text_of upd).
    remember (get s "state" (VStr "ask_name")) as st eqn:Hst.
    remember (get s "data" (VDict ∅)) as dt eqn:Hdt.
    destruct (eq_str st "ask_name") eqn:E1.
    { destruct (text_of upd =? "") eqn:Et; exec; [quiet |].
      destruct dt as [| | | | a]; exec; [quiet .. |].
      destruct (flt (UpdateOne "botsession")) eqn:Hup; exec;
        [failed_write | advanced E1]. }
    destruct (eq_str st "ask_phone") eqn:E2.
    { destruct dt as [| | | | a]; exec; [quiet .. |].
      destruct (flt (UpdateOne "botsession")) eqn:Hup; exec;
        [failed_write | advanced E2]. }
    destruct (eq_str st "ask_date") eqn:E3.
    { destruct dt as [| | | | a]; exec; [quiet .. |].
      destruct (flt (UpdateOne "botsession")) eqn:Hup; exec;
        [failed_write | advanced E3]. }
    destruct (eq_str st "ask_time") eqn:E4.
    { destruct dt as [| | | | a]; exec; [quiet .. |].
      destruct (flt (UpdateOne "botsession")) eqn:Hup; exec;
        [failed_write | advanced E4]. }
    destruct (eq_str st "ask_note") eqn:E5; [| exec; quiet].
    apply eq_str_spec in E5.
    destruct dt as [| | | | a]; exec; [quiet .. |].
    destruct (flt (InsertOne "appointment")) eqn:Hi; exec.
    { eapply effect_booking_failed; [done | done | by rewrite <- E5]. }
    destruct (flt (UpdateOne "botsession")) eqn:Hup; exec.
    + apply (effect_booked upd d uid i s a false);
        [done | done | by rewrite <- E5 | done].
    + apply (effect_booked upd d uid i s a true);
        [done | done | by rewrite <- E5 | done].
  - destruct (flt (InsertOne "botsession")) eqn:Hi; exec; [failed_write |].
    rewrite collection_insert_doc, lookup_app_r, Nat.sub_diag by done.
    cbn [lookup list_lookup fmap option_fmap option_map]. exec.
    by apply effect_new.
Qed.

(** Whatever the request, the store and the fault plan, a call attempts at
    most one booking insert, and the bookings are as before or one more;
    one more only for a session that was in [ask_note]. *)
Lemma booking_inserted_at_most_once upd flt db :
  let o := bot_update upd flt db in
  (booking_inserts (ops o) ≤ 1)%nat ∧
  (stored_bookings (store o) = stored_bookings db ∨
   ∃ d uid i s r,
     db = Some d ∧
     user_id upd = Some uid ∧
     find_session d uid = Some (i, s) ∧
     state_of s = VStr "ask_note" ∧
     stored_bookings (store o) = (bookings d ++ [r])%list).
Proof.
  intros o. pose proof (bot_update_effect upd flt db) as H.
  cbv zeta in H. fold o in H. clearbody o. destruct o as [res st l].
  cbn [store ops] in *. inversion H; subst; clear H.
  - split; [vm_compute; lia | by left].
  - split; [vm_compute; lia | by left].
  - split; [| by left].
    match goal with
    | Hop : _ ∈ _ |- _ =>
        repeat (apply elem_of_cons in Hop as [-> | Hop]);
        [vm_compute; lia .. | by apply elem_of_nil in Hop]
    end.
  - split; [vm_compute; lia | by left].
  - split; [vm_compute; lia |]. left. cbn [stored_bookings].
    by apply collection_insert_doc_ne.
  - split; [vm_compute; lia |]. left. cbn [stored_bookings].
    by apply collection_set_fields_ne.
  - split; [vm_compute; lia |]. right. eexists d, uid, i, s, _.
    split_and!; try done. cbn [stored_bookings]. unfold bookings.
    destruct completed.
    + rewrite collection_set_fields_ne by done. apply collection_insert_doc.
    + apply collection_insert_doc.
Qed.

(** No call stores anything but a [dict] as the answers of a session. *)
Lemma effect_keeps_sessions_typed upd d d' l :
  effect upd (Some d) (Some d') l → sessions_typed d → sessions_typed d'.
Proof.
  unfold sessions_typed. intros H. inversion H; subst; try done.
  - intros Ht. unfold sessions. rewrite collection_insert_doc.
    apply Forall_app. split; [done |]. constructor; [| done].
    by exists ∅.
  - intros Ht.
    destruct (set_fields_session d uid i s
                (set_state_data next (VDict (<[key:=VStr (text_of upd)]> a))))
      as (_ & -> & _); [done | apply set_state_data_keeps_user |].
    apply Forall_insert; [done |]. eexists. apply data_of_set_state_data.
  - intros Ht. destruct completed.
    + destruct (finalized_store d uid i s (booking_of uid (text_of upd) a))
        as (_ & s' & _ & _ & Hd & ->); [done |].
      apply Forall_insert; [done |]. exists a. by rewrite Hd.
    + unfold sessions. by rewrite collection_insert_doc_ne.
Qed.

Lemma bot_update_keeps_sessions_typed upd flt d :
  sessions_typed d →
  ∃ d', store (bot_update upd flt (Some d)) = Some d' ∧ sessions_typed d'.
Proof.
  intros Ht. pose proof (bot_update_effect upd flt (Some d)) as H.
  cbv zeta in H. destruct (store (bot_update upd flt (Some d))) as [d'|].
  - exists d'. split; [done |]. by eapply effect_keeps_sessions_typed.
  - inversion H.
Qed.


(** ** Every outcome of [bot_update] *)

Ltac in_table := apply list_elem_of_In; simpl; tauto.

Ltac not_a_dict tag :=
  match goal with
  | Hstate : state_of ?s = VStr tag, Hdt : get ?s "data" _ = _ |- _ =>
      eapply (handled_not_a_dict _ _ _ _ _ s tag);
      [ done | done | done | in_table | done
      | intros ? Hd; unfold data_of in Hd; congruence ]
  end.

Ltac prompting tag key next prompt :=
  match goal with
  | Hstate : state_of ?s = VStr tag, Hf : ?flt (FindOne "botsession") = false
    |- _ =>
      destruct (get s "data" (VDict ∅)) as [| | | | a] eqn:Hdt; exec;
      [ not_a_dict tag .. |];
      destruct (flt (UpdateOne "botsession")) eqn:Hup; exec;
      [ eapply (handled_step_failed _ _ _ _ _ s a tag key next prompt);
          [done | done | done | done | in_table | done | done]
      | eapply (handled_step _ _ _ _ _ s a tag key next prompt);
          [done | done | done | done | in_table | done] ]
  end.

Lemma bot_update_handled upd flt db : handled upd flt db (bot_update upd flt db).
Proof.
  exec.
  destruct db as [d|]; exec; [| apply handled_unconfigured].
  destruct (user_id upd) as [uid|] eqn:Hu; exec; [| by apply handled_no_user].
  destruct (flt (FindOne "botsession")) eqn:Hf; exec;
    [by apply handled_find_failed |].
  destruct (list_find _ _) as [[i s]|] eqn:Hs; exec.
  - fold (text_of upd). fold (state_of s).
    destruct (eq_str (state_of s) "ask_name") eqn:E1.
    { apply eq_str_spec in E1. rewrite E1.
      destruct (text_of upd =? "") eqn:Et; exec.
      - apply String.eqb_eq in Et. by eapply handled_name_again.
      - apply String.eqb_neq in Et. prompting "ask_name" "client_name" "ask_phone" reply_ask_phone. }
    destruct (eq_str (state_of s) "ask_phone") eqn:E2.
    { apply eq_str_spec in E2. prompting "ask_phone" "phone" "ask_date" reply_ask_date. }
    destruct (eq_str (state_of s) "ask_date") eqn:E3.
    { apply eq_str_spec in E3. prompting "ask_date" "preferred_date" "ask_time" reply_ask_time. }
    destruct (eq_str (state_of s) "ask_time") eqn:E4.
    { apply eq_str_spec in E4. prompting "ask_time" "preferred_time" "ask_note" reply_ask_note. }
    destruct (eq_str (state_of s) "ask_note") eqn:E5.
    { apply eq_str_spec in E5.
      destruct (get s "data" (VDict ∅)) as [| | | | a] eqn:Hdt; exec;
        [ not_a_dict "ask_note" .. |].
      destruct (flt (InsertOne "appointment")) eqn:Hi; exec;
        [by eapply handled_booking_failed |].
      destruct (flt (UpdateOne "botsession")) eqn:Hup; exec.
      - by eapply (handled_booked_only _ _ _ _ _ s a).
      - by eapply (handled_completed _ _ _ _ _ s a). }
    eapply handled_fallback; [done | done |].
    intros tag Htag Hst. apply eq_str_spec in Hst.
    apply list_elem_of_In in Htag. simpl in Htag.
    destruct Htag as [<- | [<- | [<- | [<- | [<- | []]]]]]; congruence.
  - destruct (flt (InsertOne "botsession")) eqn:Hi; exec;
      [by eapply handled_new_failed |].
    rewrite collection_insert_doc, lookup_app_r, Nat.sub_diag by done.
    cbn [lookup list_lookup fmap option_fmap option_map]. exec.
    by apply handled_new.
Qed.

(** The cases of [handled] for the call at hand. *)
Ltac outcomes upd flt db :=
  generalize (bot_update_handled upd flt db);
  generalize (bot_update upd flt db);
  let o := fresh "o" in let Ho := fresh "Ho" in
  intros o Ho; inversion Ho; subst; clear Ho; cbn [result store ops] in *.

(** ** Users do not interfere *)

Lemma has_user_inj uid uid' s :
  has_user uid s = true → has_user uid' s = true → uid = uid'.
Proof.
  unfold has_user. destruct (s !! "telegram_user_id") as [[]|]; try done.
  intros H1 H2. apply Z.eqb_eq in H1, H2. congruence.
Qed.

Lemma has_user_patch uid patch s :
  patch !! "telegram_user_id" = None →
  has_user uid (patch ∪ s) = has_user uid s.
Proof. intros H. unfold has_user. by rewrite lookup_union_r. Qed.

Lemma has_user_new_session_iff uid uid' :
  has_user uid' (new_session uid) = true ↔ uid = uid'.
Proof.
  unfold has_user, new_session. rewrite lookup_insert_eq. apply Z.eqb_eq.
Qed.

Lemma has_user_booking_of uid uid' text a :
  has_user uid' (booking_of uid text a) = true ↔ uid = uid'.
Proof.
  unfold has_user, booking_of. rewrite lookup_insert_eq. apply Z.eqb_eq.
Qed.

(** Replacing an element that does not satisfy [P] by another that does
    not leaves the first match where it was. *)
Lemma list_find_insert_others {A} (P : A → Prop) `{∀ x, Decision (P x)}
    (l : list A) i x y :
  l !! i = Some x → ¬ P x → ¬ P y →
  list_find P (<[i := y]> l) = list_find P l.
Proof.
  revert i. induction l as [| z l IH]; intros [| i] Hi Hx Hy; try done.
  - simpl in *. simplify_eq. by rewrite !decide_False.
  - simpl in *. case_decide; [done |]. by rewrite (IH i).
Qed.

Lemma find_session_new_other d uid uid' :
  uid ≠ uid' →
  find_session (insert_doc "botsession" (new_session uid) d) uid' =
    find_session d uid'.
Proof.
  intros Hne. unfold find_session, sessions. rewrite collection_insert_doc.
  destruct (list_find _ (collection d "botsession")) as [[j s]|] eqn:Hf.
  - by erewrite list_find_app_l.
  - rewrite list_find_app_r by done. cbn.
    rewrite decide_False; [done |].
    by rewrite has_user_new_session_iff.
Qed.

Lemma find_session_set_fields_other d uid uid' i s patch :
  find_session d uid = Some (i, s) →
  uid ≠ uid' →
  patch !! "telegram_user_id" = None →
  find_session (set_fields "botsession" i patch d) uid' = find_session d uid'.
Proof.
  intros Hs Hne Hp.
  pose proof (find_session_lookup _ _ _ _ Hs) as Hi.
  apply list_find_Some in Hs as (_ & Hu & _).
  unfold find_session, sessions in *.
  rewrite (collection_set_fields _ _ _ s) by done.
  apply (list_find_insert_others _ _ i s); [done | |].
  - intros Hu'. by destruct Hne; eapply has_user_inj.
  - rewrite has_user_patch by done. intros Hu'.
    by destruct Hne; eapply has_user_inj.
Qed.

(** X1: a call never changes which session the messages of another user
    find, nor that session: for every request, store and fault plan, the
    session found for a user other than the sender is the same after the
    call as before. *)
Theorem other_users_sessions_untouched upd flt d uid' :
  user_id upd ≠ Some uid' →
  ∃ d', store (bot_update upd flt (Some d)) = Some d' ∧
        find_session d' uid' = find_session d uid'.
Proof.
  intros Hother. outcomes upd flt (Some d); eexists; (split; [done |]);
    try done.
  - apply find_session_new_other. (intros ?; subst; contradiction).
  - eapply find_session_set_fields_other; [done | (intros ?; subst; contradiction) |].
    apply set_state_data_keeps_user.
  - by apply find_session_insert_doc.
  - rewrite (find_session_set_fields_other _ uid uid' i s);
      [ by apply find_session_insert_doc
      | by rewrite find_session_insert_doc
      | intros ?; subst; contradiction
      | by apply lookup_singleton_ne ].
Qed.

Lemma other_users_sessions_untouched_witness :
  ∃ d', store (bot_update (msg 42 "Alex") no_faults
                 (Some {[ "botsession" :=
                            [session_at 7 "ask_date" ∅; session_at 42 "ask_name" ∅] ]}))
          = Some d' ∧
        find_session d' 7 =
          find_session {[ "botsession" :=
                            [session_at 7 "ask_date" ∅; session_at 42 "ask_name" ∅] ]} 7.
Proof.
  apply (other_users_sessions_untouched (msg 42 "Alex") no_faults
           {[ "botsession" :=
                [session_at 7 "ask_date" ∅; session_at 42 "ask_name" ∅] ]} 7).
  discriminate.
Defined.

(** ** What a call never does *)

Lemma sessions_set_fields_keep_user d i s patch :
  sessions d !! i = Some s →
  patch !! "telegram_user_id" = None →
  ∀ j t, sessions d !! j = Some t →
    ∃ t', sessions (set_fields "botsession" i patch d) !! j = Some t' ∧
          t' !! "telegram_user_id" = t !! "telegram_user_id".
Proof.
  intros Hi Hp j t Hj. unfold sessions in *.
  rewrite (collection_set_fields _ _ _ s) by done.
  destruct (decide (i = j)) as [-> | Hne].
  - simplify_eq. eexists. split.
    + apply list_lookup_insert_eq. by eapply lookup_lt_Some.
    + by rewrite lookup_union_r.
  - exists t. by rewrite list_lookup_insert_ne.
Qed.

(** X2: a call never removes or rewrites a stored booking, never removes a
    session nor moves it to another user, and never touches a collection
    other than [botsession] and [appointment], whatever the request, the
    store and the failures. *)
Theorem bot_update_only_adds upd flt d :
  ∃ d', store (bot_update upd flt (Some d)) = Some d' ∧
        bookings d `prefix_of` bookings d' ∧
        (∀ j t, sessions d !! j = Some t →
           ∃ t', sessions d' !! j = Some t' ∧
                 t' !! "telegram_user_id" = t !! "telegram_user_id") ∧
        (∀ c, c ≠ "botsession" → c ≠ "appointment" →
              collection d' c = collection d c).
Proof.
  outcomes upd flt (Some d); eexists; (split; [done |]);
    try (split_and!; [done | by eauto | done]).
  - split_and!.
    + unfold bookings. by rewrite collection_insert_doc_ne.
    + intros j t Hj. exists t. split; [| done]. unfold sessions.
      rewrite collection_insert_doc. by apply lookup_app_l_Some.
    + intros c Hc _. by apply collection_insert_doc_ne.
  - split_and!.
    + unfold bookings. by rewrite collection_set_fields_ne.
    + eapply sessions_set_fields_keep_user;
        [by eapply find_session_lookup | apply set_state_data_keeps_user].
    + intros c Hc _. by apply collection_set_fields_ne.
  - split_and!.
    + unfold bookings. rewrite collection_insert_doc. by apply prefix_app_r.
    + intros j t Hj. exists t. split; [| done]. unfold sessions.
      by rewrite collection_insert_doc_ne.
    + intros c _ Hc. by apply collection_insert_doc_ne.
  - split_and!.
    + unfold bookings. rewrite collection_set_fields_ne by done.
      rewrite collection_insert_doc. by apply prefix_app_r.
    + intros j t Hj.
      assert (Hsame : sessions (insert_doc "appointment"
                                  (booking_of uid (text_of upd) a) d)
                      = sessions d)
        by (unfold sessions; by rewrite collection_insert_doc_ne).
      apply (sessions_set_fields_keep_user _ i s).
      * rewrite Hsame. by eapply find_session_lookup.
      * by apply lookup_singleton_ne.
      * by rewrite Hsame.
    + intros c Hc Hc'. rewrite collection_set_fields_ne by done.
      by apply collection_insert_doc_ne.
Qed.

(** X4: a session whose stored [data] is not a dict cannot be advanced: in
    every state that stores an answer (in [ask_name] only for a non-empty
    text) the call raises [TypeError] before any write, and the store is
    unchanged. *)
Theorem non_dict_answers_raise upd flt d uid i s tag :
  user_id upd = Some uid →
  find_session d uid = Some (i, s) →
  state_of s = VStr tag →
  tag ∈ writing_states →
  (tag = "ask_name" → text_of upd ≠ "") →
  (∀ a, data_of s ≠ VDict a) →
  flt (FindOne "botsession") = false →
  bot_update upd flt (Some d) =
    MkOutcome (inl TypeError) (Some d) [FindOne "botsession"].
Proof.
  intros Hu Hs Hst Htag Ht Hd Hf.
  outcomes upd flt (Some d); simplify_eq; try congruence;
    try (exfalso; by eapply Hd).
  - exfalso. apply Ht; congruence.
  - exfalso.
    match goal with Hno : ∀ t, t ∈ writing_states → _ |- _ => by eapply (Hno tag) end.
Qed.

Lemma non_dict_answers_raise_witness :
  bot_update (msg 42 "+1555") no_faults
      (Some {[ "botsession" :=
                 [ {[ "telegram_user_id" := VInt 42; "state" := VStr "ask_phone";
                      "data" := VNone ]} ] ]}) =
    MkOutcome (inl TypeError)
      (Some {[ "botsession" :=
                 [ {[ "telegram_user_id" := VInt 42; "state" := VStr "ask_phone";
                      "data" := VNone ]} ] ]})
      [FindOne "botsession"].
Proof.
  apply (non_dict_answers_raise (msg 42 "+1555") no_faults _ 42 0
           {[ "telegram_user_id" := VInt 42; "state" := VStr "ask_phone";
              "data" := VNone ]} "ask_phone");
    try reflexivity; try discriminate.
  apply list_elem_of_In. simpl. tauto.
Defined.

(** ** Invariants *)

Lemma bot_update_store upd flt d :
  ∃ d', store (bot_update upd flt (Some d)) = Some d'.
Proof. outcomes upd flt (Some d); by eexists. Qed.

Lemma run_with_store calls d (I : Store → Prop) :
  (∀ flt upd d0 d1,
     I d0 → store (bot_update upd flt (Some d0)) = Some d1 → I d1) →
  I d → ∃ d', run_with calls (Some d) = Some d' ∧ I d'.
Proof.
  intros Hstep. revert d. induction calls as [| [flt u] calls IH]; intros d Hd.
  - by exists d.
  - cbn [run_with]. destruct (bot_update_store u flt d) as [d1 Hd1].
    rewrite Hd1. eauto.
Qed.

Lemma one_session_per_user_transfer d d' :
  (∀ j t', sessions d' !! j = Some t' →
     ∃ t, sessions d !! j = Some t ∧ ∀ u, has_user u t' = has_user u t) →
  one_session_per_user d → one_session_per_user d'.
Proof.
  intros Hback Hone uid i j s s' Hi Hj Hu Hu'.
  destruct (Hback _ _ Hi) as (t & Hti & Ht).
  destruct (Hback _ _ Hj) as (t' & Htj & Ht').
  rewrite Ht in Hu. rewrite Ht' in Hu'. eauto.
Qed.

Lemma sessions_set_fields_back d i s patch :
  sessions d !! i = Some s →
  patch !! "telegram_user_id" = None →
  ∀ j t', sessions (set_fields "botsession" i patch d) !! j = Some t' →
    ∃ t, sessions d !! j = Some t ∧ ∀ u, has_user u t' = has_user u t.
Proof.
  intros Hi Hp j t'. unfold sessions in *.
  rewrite (collection_set_fields _ _ _ s) by done.
  destruct (decide (i = j)) as [-> | Hne].
  - rewrite list_lookup_insert_eq by by eapply lookup_lt_Some.
    intros ?; simplify_eq. exists s. split; [done |].
    intros u. by apply has_user_patch.
  - rewrite list_lookup_insert_ne by done. eauto.
Qed.

Lemma bot_update_one_session_per_user upd flt d d' :
  one_session_per_user d →
  store (bot_update upd flt (Some d)) = Some d' →
  one_session_per_user d'.
Proof.
  intros Hone. outcomes upd flt (Some d); intros ?; simplify_eq; try done.
  - intros uid0 i j s s'. unfold sessions. rewrite collection_insert_doc.
    fold (sessions d). intros Hi Hj Hu Hu'.
    match goal with Hnone : find_session d uid = None |- _ =>
      apply list_find_None in Hnone; rename Hnone into Hnone' end.
    apply lookup_app_Some in Hi as [Hi | [Hil Hi]];
      apply lookup_app_Some in Hj as [Hj | [Hjl Hj]].
    + eauto.
    + apply list_lookup_singleton_Some in Hj as [Hj <-].
      apply has_user_new_session_iff in Hu' as ->.
      by eapply Forall_lookup_1 in Hnone'.
    + apply list_lookup_singleton_Some in Hi as [Hi <-].
      apply has_user_new_session_iff in Hu as ->.
      by eapply Forall_lookup_1 in Hnone'.
    + apply list_lookup_singleton_Some in Hi as [Hi _].
      apply list_lookup_singleton_Some in Hj as [Hj _]. lia.
  - eapply one_session_per_user_transfer; [| done].
    eapply sessions_set_fields_back;
      [by eapply find_session_lookup | apply set_state_data_keeps_user].
  - eapply one_session_per_user_transfer; [| done].
    intros j t'. unfold sessions. rewrite collection_insert_doc_ne by done.
    eauto.
  - eapply one_session_per_user_transfer; [| done].
    intros j t' Hj.
    destruct (sessions_set_fields_back
                (insert_doc "appointment" (booking_of uid (text_of upd) a) d)
                i s {[ "state" := VStr "complete" ]}) with (j := j) (t' := t')
      as (t & Ht & Hsame); [| by apply lookup_singleton_ne | done |].
    + unfold sessions. rewrite collection_insert_doc_ne by done.
      by eapply find_session_lookup.
    + exists t. split; [| done]. revert Ht. unfold sessions.
      by rewrite collection_insert_doc_ne.
Qed.

(** X5: over any number of calls, each with its own failures, no user gets
    a second session: a store with at most one session per user still has
    at most one session per user. *)
Theorem sessions_stay_unique calls d :
  one_session_per_user d →
  ∃ d', run_with calls (Some d) = Some d' ∧ one_session_per_user d'.
Proof.
  apply run_with_store. intros flt upd d0 d1 H0 H1.
  by eapply bot_update_one_session_per_user.
Qed.

Lemma sessions_stay_unique_witness :
  ∃ d', run_with [(no_faults, msg 42 "hi"); (no_faults, msg 7 "hi");
                  (failing (UpdateOne "botsession"), msg 42 "Alex");
                  (no_faults, msg 42 "Alex")] (Some ∅) = Some d' ∧
        one_session_per_user d'.
Proof.
  apply (sessions_stay_unique
           [(no_faults, msg 42 "hi"); (no_faults, msg 7 "hi");
            (failing (UpdateOne "botsession"), msg 42 "Alex");
            (no_faults, msg 42 "Alex")] ∅).
  intros uid i j s s' Hi. discriminate Hi.
Defined.

Ltac not_member H :=
  exfalso;
  repeat (apply elem_of_cons in H as [H | H]; [discriminate H |]);
  by apply elem_of_nil in H.

Lemma answered_insert a key key' t :
  answered a key → answered (<[key' := VStr t]> a) key.
Proof.
  intros [u Hu]. destruct (decide (key' = key)) as [-> | Hne].
  - exists t. apply lookup_insert_eq.
  - exists u. by rewrite lookup_insert_ne.
Qed.

Lemma answered_insert_ne a key key' v :
  key' ≠ key → answered a key → answered (<[key' := v]> a) key.
Proof. intros Hne [u Hu]. exists u. by rewrite lookup_insert_ne. Qed.

Lemma named_insert a key v :
  key ≠ "client_name" → named a → named (<[key := v]> a).
Proof.
  intros Hne (u & Hu & Hu'). exists u. by rewrite lookup_insert_ne.
Qed.

(** The answers after a prompting step are those of the next state. *)
Lemma answers_for_step tag key next prompt a text :
  (tag, key, next, prompt) ∈ prompts →
  (tag = "ask_name" → text ≠ "") →
  answers_for tag a →
  answers_for next (<[key := VStr text]> a).
Proof.
  intros Hrow Htext (Hn & Hp & Hd & Ht).
  repeat (apply elem_of_cons in Hrow as [Hrow | Hrow]);
    [| | | | by apply elem_of_nil in Hrow]; simplify_eq;
    (split_and!; intros Hin; try not_member Hin).
  - exists text. split; [apply lookup_insert_eq | by apply Htext].
  - apply named_insert; [done |]. apply Hn. in_table.
  - eexists. apply lookup_insert_eq.
  - apply named_insert; [done |]. apply Hn. in_table.
  - apply answered_insert, Hp. in_table.
  - eexists. apply lookup_insert_eq.
  - apply named_insert; [done |]. apply Hn. in_table.
  - apply answered_insert, Hp. in_table.
  - apply answered_insert, Hd. in_table.
  - eexists. apply lookup_insert_eq.
Qed.

Lemma booking_of_bot_booking uid text a :
  answers_for "ask_note" a → bot_booking (booking_of uid text a).
Proof.
  intros (Hn & Hp & Hd & Ht). unfold bot_booking, booking_of. split_and!.
  - do 3 (apply named_insert; [done |]). apply Hn. in_table.
  - do 3 (apply answered_insert_ne; [done |]). apply Hp. in_table.
  - do 3 (apply answered_insert_ne; [done |]). apply Hd. in_table.
  - do 3 (apply answered_insert_ne; [done |]). apply Ht. in_table.
  - do 2 (apply answered_insert_ne; [done |]). eexists. apply lookup_insert_eq.
  - rewrite lookup_insert_ne by done. apply lookup_insert_eq.
  - eexists. apply lookup_insert_eq.
Qed.

Lemma session_consistent_lookup d uid i s a :
  Forall session_consistent (sessions d) →
  find_session d uid = Some (i, s) →
  data_of s = VDict a →
  ∀ tag, state_of s = VStr tag → answers_for tag a.
Proof.
  intros Hall Hs Ha.
  apply find_session_lookup in Hs.
  eapply Forall_lookup_1 in Hall as (a' & Ha' & Hfor); [| done].
  rewrite Ha in Ha'. by simplify_eq.
Qed.

Lemma bot_update_store_consistent upd flt d d' :
  store_consistent d →
  store (bot_update upd flt (Some d)) = Some d' →
  store_consistent d'.
Proof.
  intros [Hss Hbs]. unfold store_consistent.
  outcomes upd flt (Some d); intros ?; simplify_eq; try done.
  - split.
    + unfold sessions. rewrite collection_insert_doc.
      apply Forall_app. split; [done |]. apply Forall_singleton.
      exists ∅. split; [done |]. intros tag Htag.
      assert (state_of (new_session uid) = VStr "ask_name") as Hnew
        by reflexivity.
      assert (tag = "ask_name") as -> by congruence.
      split_and!; intros Hin; not_member Hin.
    + unfold bookings. by rewrite collection_insert_doc_ne.
  - destruct (advanced_session d uid i s next key (text_of upd) a)
      as (s' & _ & Hst & Hd & -> & ->); [done |]. split; [| done].
    apply Forall_insert; [done |].
    eexists. split; [done |]. intros tag' Htag'.
    assert (tag' = next) as -> by congruence.
    eapply answers_for_step; [done | done |].
    by eapply session_consistent_lookup.
  - split.
    + unfold sessions. by rewrite collection_insert_doc_ne.
    + unfold bookings. rewrite collection_insert_doc.
      apply Forall_app. split; [done |]. apply Forall_singleton.
      apply booking_of_bot_booking. by eapply session_consistent_lookup.
  - destruct (finalized_store d uid i s (booking_of uid (text_of upd) a))
      as (-> & s' & _ & Hst & Hd & ->); [done |].
    assert (answers_for "ask_note" a) as Hfor
      by by eapply session_consistent_lookup.
    split.
    + apply Forall_insert; [done |].
      exists a. split; [congruence |]. intros tag' Htag'.
      assert (tag' = "complete") as -> by congruence.
      destruct Hfor as (Hn & Hp & Hdt & Ht).
      split_and!; intros _; [apply Hn | apply Hp | apply Hdt | apply Ht];
        in_table.
    + apply Forall_app. split; [done |]. apply Forall_singleton.
      by apply booking_of_bot_booking.
Qed.

(** X6: the stored answers always match the stored state, and every
    booking is complete.  Over any number of calls, each with its own
    failures, on a store where this holds (the empty store, say): a session
    past [ask_name] holds a non-empty [client_name], one past [ask_phone]
    also [phone], and so on; every booking holds a non-empty
    [client_name], strings for [phone], [preferred_date], [preferred_time]
    and [note], [source = "bot"] and a user id. *)
Theorem answers_match_state calls d :
  store_consistent d →
  ∃ d', run_with calls (Some d) = Some d' ∧ store_consistent d'.
Proof.
  apply run_with_store. intros flt upd d0 d1 H0 H1.
  by eapply bot_update_store_consistent.
Qed.

Lemma answers_match_state_witness :
  ∃ d', run_with ((λ u, (no_faults, u)) <$> scenario) (Some ∅) = Some d' ∧
        store_consistent d'.
Proof.
  apply (answers_match_state ((λ u, (no_faults, u)) <$> scenario) ∅).
  split; constructor.
Defined.

Lemma is_complete_as d d' uid :
  find_session d' uid = find_session d uid → is_complete d' uid = is_complete d uid.
Proof. unfold is_complete. by intros ->. Qed.

Lemma bookings_of_as d d' uid :
  bookings d' = bookings d → bookings_of d' uid = bookings_of d uid.
Proof. unfold bookings_of. by intros ->. Qed.

Lemma bot_update_booked_once upd d d' :
  booked_once d →
  store (bot_update upd no_faults (Some d)) = Some d' →
  booked_once d'.
Proof.
  intros Hinv.
  outcomes upd no_faults (Some d); intros ?; simplify_eq; try done;
    try match goal with H : no_faults _ = true |- _ => discriminate H end.
  - (* a new session *)
    intros uid0. rewrite (bookings_of_as d)
      by (unfold bookings; by rewrite collection_insert_doc_ne).
    destruct (decide (uid = uid0)) as [<- | Hne].
    + specialize (Hinv uid). unfold is_complete in *.
      rewrite find_session_new by done.
      match goal with Hnone : find_session d uid = None |- _ =>
        by rewrite Hnone in Hinv end.
    + rewrite (is_complete_as d) by by apply find_session_new_other.
      apply Hinv.
  - (* a prompting step *)
    intros uid0.
    destruct (advanced_session d uid i s next key (text_of upd) a)
      as (s' & Hf' & Hst' & _ & _ & Hb); [done |].
    rewrite (bookings_of_as d) by done.
    destruct (decide (uid = uid0)) as [<- | Hne].
    + specialize (Hinv uid). unfold is_complete in *. rewrite Hf', Hst'.
      match goal with
      | Hf : find_session d uid = Some _, Hst : state_of s = _,
        Hrow : _ ∈ prompts |- _ =>
          rewrite Hf, Hst in Hinv;
          repeat (apply elem_of_cons in Hrow as [Hrow | Hrow]);
          [| | | | by apply elem_of_nil in Hrow]; by simplify_eq
      end.
    + rewrite (is_complete_as d); [apply Hinv |].
      eapply find_session_set_fields_other;
        [done | done | apply set_state_data_keeps_user].
  - (* the booking *)
    intros uid0.
    destruct (finalized_store d uid i s (booking_of uid (text_of upd) a))
      as (Hb & s' & Hf' & Hst' & _ & _); [done |].
    unfold bookings_of. rewrite Hb, filter_app, length_app.
    fold (bookings_of d uid0). rewrite Hinv.
    destruct (decide (uid = uid0)) as [<- | Hne].
    + unfold is_complete. rewrite Hf', Hst'.
      match goal with
      | Hf : find_session d uid = Some _, Hst : state_of s = _ |- _ =>
          rewrite Hf, Hst
      end.
      assert (Hu : has_user uid (booking_of uid (text_of upd) a) = true)
        by by apply has_user_booking_of.
      rewrite filter_cons, decide_True by exact Hu. reflexivity.
    + assert (Hu : ¬ has_user uid0 (booking_of uid (text_of upd) a) = true)
        by by rewrite has_user_booking_of.
      rewrite filter_cons, decide_False by exact Hu.
      rewrite (is_complete_as d (set_fields _ _ _ _)); [cbn; lia |].
      rewrite (find_session_set_fields_other _ uid uid0 i s);
        [ by apply find_session_insert_doc
        | by rewrite find_session_insert_doc
        | done
        | by apply lookup_singleton_ne ].
Qed.

(** X7: with a store that does not fail, a dialogue is booked exactly
    once.  Over any number of calls on a store where every user has one
    booking if the session is [complete] and none otherwise (the empty
    store, say), that still holds: no booking before [complete], one at
    [complete], never a second one. *)
Theorem booked_exactly_once updates d :
  booked_once d →
  ∃ d', run no_faults updates (Some d) = Some d' ∧ booked_once d'.
Proof.
  revert d. induction updates as [| u updates IH]; intros d Hd.
  - by exists d.
  - cbn [run]. destruct (bot_update_store u no_faults d) as [d1 Hd1].
    rewrite Hd1. apply IH. by eapply bot_update_booked_once.
Qed.

Lemma booked_exactly_once_witness :
  ∃ d', run no_faults (scenario ++ [msg 42 "again"; msg 42 "and again"])%list
          (Some ∅) = Some d' ∧
        booked_once d'.
Proof.
  apply (booked_exactly_once
           (scenario ++ [msg 42 "again"; msg 42 "and again"])%list ∅).
  intros uid. reflexivity.
Defined.

(** ** A whole dialogue *)

(** X8: for a user without a session and a store that does not fail, six
    messages make one booking out of the trimmed texts: whatever the first
    message says and whatever the five answers are, as long as the name is
    not empty after trimming, the dialogue ends in [complete] and adds
    exactly one booking with the five trimmed answers, [source = "bot"]
    and the user id; nothing else is booked. *)
Theorem dialogue_books_the_answers d uid hello name phone date time note :
  find_session d uid = None →
  strip name ≠ "" →
  ∃ d' s',
    run no_faults
      [msg uid hello; msg uid name; msg uid phone; msg uid date;
       msg uid time; msg uid note] (Some d) = Some d' ∧
    bookings d' =
      (bookings d ++
       [ {[ "client_name" := VStr (strip name); "phone" := VStr (strip phone);
            "preferred_date" := VStr (strip date);
            "preferred_time" := VStr (strip time);
            "note" := VStr (strip note); "source" := VStr "bot";
            "telegram_user_id" := VInt uid ]} ])%list ∧
    find_session d' uid = Some (List.length (sessions d), s') ∧
    state_of s' = VStr "complete".
Proof.
  intros Hnone Hname. cbn [run].
  set (a2 := <["client_name" := VStr (text_of (msg uid name))]> (∅ : Doc)).
  set (a3 := <["phone" := VStr (text_of (msg uid phone))]> a2).
  set (a4 := <["preferred_date" := VStr (text_of (msg uid date))]> a3).
  set (a5 := <["preferred_time" := VStr (text_of (msg uid time))]> a4).
  (* first contact *)
  rewrite (bot_update_new_session (msg uid hello) no_faults d uid) by done.
  cbn [store].
  pose proof (find_session_new d uid Hnone) as Hs1.
  set (d1 := insert_doc "botsession" (new_session uid) d) in *.
  assert (Hb1 : bookings d1 = bookings d)
    by (unfold bookings; by apply collection_insert_doc_ne).
  set (n := List.length (sessions d)) in *.
  (* the name *)
  rewrite (bot_update_name (msg uid name) no_faults d1 uid n (new_session uid)
             eq_refl eq_refl Hs1 ∅) by done.
  cbn [store].
  destruct (advanced_session d1 uid n (new_session uid) "ask_phone" "client_name"
              (text_of (msg uid name)) ∅ Hs1) as (s2 & Hs2 & Hst2 & Ha2 & _ & Hb2).
  fold a2 in Hs2, Ha2, Hb2 |- *.
  set (d2 := set_fields "botsession" n _ d1) in *.
  (* the phone *)
  rewrite (bot_update_phone (msg uid phone) no_faults d2 uid n s2
             eq_refl eq_refl Hs2 a2 Hst2 Ha2 eq_refl).
  cbn [store].
  destruct (advanced_session d2 uid n s2 "ask_date" "phone"
              (text_of (msg uid phone)) a2 Hs2) as (s3 & Hs3 & Hst3 & Ha3 & _ & Hb3).
  fold a3 in Hs3, Ha3, Hb3 |- *.
  set (d3 := set_fields "botsession" n _ d2) in *.
  (* the date *)
  rewrite (bot_update_date (msg uid date) no_faults d3 uid n s3
             eq_refl eq_refl Hs3 a3 Hst3 Ha3 eq_refl).
  cbn [store].
  destruct (advanced_session d3 uid n s3 "ask_time" "preferred_date"
              (text_of (msg uid date)) a3 Hs3) as (s4 & Hs4 & Hst4 & Ha4 & _ & Hb4).
  fold a4 in Hs4, Ha4, Hb4 |- *.
  set (d4 := set_fields "botsession" n _ d3) in *.
  (* the time *)
  rewrite (bot_update_time (msg uid time) no_faults d4 uid n s4
             eq_refl eq_refl Hs4 a4 Hst4 Ha4 eq_refl).
  cbn [store].
  destruct (advanced_session d4 uid n s4 "ask_note" "preferred_time"
              (text_of (msg uid time)) a4 Hs4) as (s5 & Hs5 & Hst5 & Ha5 & _ & Hb5).
  fold a5 in Hs5, Ha5, Hb5 |- *.
  set (d5 := set_fields "botsession" n _ d4) in *.
  (* the note *)
  rewrite (bot_update_note (msg uid note) no_faults d5 uid n s5
             eq_refl eq_refl Hs5 a5 Hst5 Ha5 eq_refl eq_refl).
  cbn [store].
  destruct (finalized_store d5 uid n s5
              (booking_of uid (text_of (msg uid note)) a5) Hs5)
    as (Hb6 & s6 & Hs6 & Hst6 & _ & _).
  eexists _, s6. split_and!; [done | | done | done].
  rewrite Hb6, Hb5, Hb4, Hb3, Hb2, Hb1. reflexivity.
Qed.

Lemma dialogue_books_the_answers_witness :
  find_session ∅ 42 = None ∧ strip " Alex " ≠ "" ∧
  ∃ d' s',
    run no_faults
      [msg 42 "/start"; msg 42 " Alex "; msg 42 ""; msg 42 "2025-12-01";
       msg 42 "14:00"; msg 42 "no"] (Some ∅) = Some d' ∧
    bookings d' =
      (bookings ∅ ++
       [ {[ "client_name" := VStr (strip " Alex "); "phone" := VStr (strip "");
            "preferred_date" := VStr (strip "2025-12-01");
            "preferred_time" := VStr (strip "14:00");
            "note" := VStr (strip "no"); "source" := VStr "bot";
            "telegram_user_id" := VInt 42 ]} ])%list ∧
    find_session d' 42 = Some (List.length (sessions ∅), s') ∧
    state_of s' = VStr "complete".
Proof.
  split; [reflexivity |]. split; [discriminate |].
  apply (dialogue_books_the_answers ∅ 42 "/start" " Alex " "" "2025-12-01"
           "14:00" "no"); [reflexivity | discriminate].
Defined.

(** ** The other endpoints *)

Lemma require_admin_wrong env password :
  password ≠ get_admin_secret env →
  require_admin env password = inl (HTTPException 401 "Unauthorized").
Proof.
  intros H. unfold require_admin. apply String.eqb_neq in H. by rewrite H.
Qed.

Lemma require_admin_right env :
  require_admin env (get_admin_secret env) = inr tt.
Proof. unfold require_admin. by rewrite String.eqb_refl. Qed.

Lemma run_find {B} c p (k : list (nat * Doc) → M B) flt d :
  bind (find c p) k flt (Some d) =
    k (filter (λ it, p it.2 = true) (imap pair (collection d c))) flt (Some d).
Proof. unfold bind, find. simpl. by destruct (k _ flt (Some d)). Qed.

Lemma run_find_unconfigured {B} c p (k : list (nat * Doc) → M B) flt :
  bind (find c p) k flt None = MkOutcome (inl TypeError) None [].
Proof. reflexivity. Qed.

(** Symbolic execution of the other handlers. *)
Ltac exec_endpoint :=
  unfold list_services, list_portfolio, create_appointment,
    admin_list_appointments, admin_add_portfolio, export_backup,
    get_documents, mbind, M_bind, mret, M_ret;
  repeat first
    [ rewrite require_admin_right | rewrite require_admin_wrong by assumption
    | progress cbn [raising export_collections]
    | rewrite run_find | rewrite run_find_unconfigured
    | exec ].

(** X9: the three guarded endpoints check the password before anything
    else: with a password that is not the secret, [admin_list_appointments],
    [admin_add_portfolio] and [export_backup] raise 401 without any store
    operation and leave the store as it is, also when there is no store. *)
Theorem admin_endpoints_check_password_first env password payload flt db :
  password ≠ get_admin_secret env →
  admin_list_appointments env password flt db =
    MkOutcome (inl (HTTPException 401 "Unauthorized")) db [] ∧
  admin_add_portfolio env payload password flt db =
    MkOutcome (inl (HTTPException 401 "Unauthorized")) db [] ∧
  export_backup env password flt db =
    MkOutcome (inl (HTTPException 401 "Unauthorized")) db [].
Proof. intros Hp. split_and!; by exec_endpoint. Qed.

Lemma admin_endpoints_check_password_first_witness :
  admin_list_appointments ∅ "guess" no_faults None =
    MkOutcome (inl (HTTPException 401 "Unauthorized")) None [] ∧
  admin_add_portfolio ∅
      {| schemas.title := "Rose"; schemas.image_url := "https://img/rose.png";
         schemas.style := None; schemas.description := None;
         schemas.featured := false |} "guess" no_faults None =
    MkOutcome (inl (HTTPException 401 "Unauthorized")) None [] ∧
  export_backup ∅ "guess" no_faults None =
    MkOutcome (inl (HTTPException 401 "Unauthorized")) None [].
Proof.
  apply (admin_endpoints_check_password_first ∅ "guess" _ no_faults None).
  discriminate.
Defined.

(** X10: [create_appointment] stores the dumped model as one more
    booking and returns its identifier: the stored document has exactly
    the nine fields of [Appointment], its [status] and [source] are the
    ones of the payload (["new"] and ["site"] for a payload that gives the
    name only), the returned id is the one the store finds it under, and
    the sessions are not touched. *)
Theorem create_appointment_stores_the_model payload flt d :
  flt (InsertOne "appointment") = false →
  let o := create_appointment payload flt (Some d) in
  let id := HexString.of_nat (List.length (bookings d)) in
  let data := Appointment_model_dump payload in
  result o = inr {[ "id" := VStr id ]} ∧
  store o = Some (insert_doc "appointment" data d) ∧
  bookings (insert_doc "appointment" data d) = (bookings d ++ [data])%list ∧
  sessions (insert_doc "appointment" data d) = sessions d ∧
  ObjectId id = ret (List.length (bookings d)) ∧
  (bookings d ++ [data])%list !! List.length (bookings d) = Some data ∧
  (∀ k, is_Some (data !! k) ↔ k ∈ Appointment_fields) ∧
  data !! "status" = Some (VStr (schemas.status payload)) ∧
  data !! "source" = Some (VStr (schemas.source payload)) ∧
  (∀ name, Appointment_model_dump (Appointment_of_name name) !! "status"
             = Some (VStr "new") ∧
           Appointment_model_dump (Appointment_of_name name) !! "source"
             = Some (VStr "site")).
Proof.
  intros Hf o id data. subst o id. split_and!.
  - by exec_endpoint.
  - by exec_endpoint.
  - apply collection_insert_doc.
  - by apply collection_insert_doc_ne.
  - apply ObjectId_str.
  - by rewrite lookup_app_r, Nat.sub_diag.
  - intros k. subst data. unfold Appointment_model_dump, Appointment_fields.
    rewrite <- elem_of_dom. rewrite !dom_insert_L, dom_singleton_L.
    rewrite <- (elem_of_list_to_set (C := gset string)). cbn.
    set_solver.
  - reflexivity.
  - reflexivity.
  - intros name. split; reflexivity.
Qed.

Lemma create_appointment_stores_the_model_witness :
  result (create_appointment (Appointment_of_name "Alex") no_faults (Some ∅)) =
    inr {[ "id" := VStr (HexString.of_nat (List.length (bookings ∅))) ]}.
Proof.
  apply (create_appointment_stores_the_model (Appointment_of_name "Alex")
           no_faults ∅).
  reflexivity.
Defined.

Lemma filter_any_doc (l : list (nat * Doc)) :
  filter (λ it, any_doc it.2 = true) l = l.
Proof.
  induction l as [| it l IH]; [done |].
  rewrite filter_cons, decide_True by done. by rewrite IH.
Qed.

Lemma find_all_listed c d :
  with_id <$> filter (λ it, any_doc it.2 = true) (imap pair (collection d c)) =
    listed c d.
Proof. rewrite filter_any_doc. unfold listed. by rewrite fmap_imap. Qed.

Lemma listed_insert_doc c doc d :
  listed c (insert_doc c doc d) =
    (listed c d ++
     [<["id" := VStr (HexString.of_nat (List.length (collection d c)))]> doc])%list.
Proof.
  unfold listed. rewrite collection_insert_doc, imap_app. cbn.
  by rewrite Nat.add_0_r.
Qed.

(** X11: the number quoted to the client is the id the admin sees.  After
    the call that completes a dialogue, [admin_list_appointments] with the
    secret lists one booking more than there were, and the last one is the
    booking of the dialogue under the id that the reply quotes. *)
Theorem bot_booking_is_listed_under_its_number env upd flt flt' d uid i s a :
  user_id upd = Some uid →
  find_session d uid = Some (i, s) →
  state_of s = VStr "ask_note" →
  data_of s = VDict a →
  flt (FindOne "botsession") = false →
  flt (InsertOne "appointment") = false →
  flt (UpdateOne "botsession") = false →
  let o := bot_update upd flt (Some d) in
  ∃ app_id items,
    result o = inr (response (reply_done app_id) (VStr "complete")) ∧
    result (admin_list_appointments env (get_admin_secret env) flt' (store o))
      = inr items ∧
    last items = Some (<["id" := VStr app_id]> (booking_of uid (text_of upd) a)) ∧
    List.length items = S (List.length (bookings d)).
Proof.
  intros Hu Hs Hst Ha Hf Hi Hup o. subst o.
  rewrite (bot_update_note upd flt d uid i s Hu Hf Hs a) by done.
  cbn [result store]. eexists _, _. split; [done |].
  exec_endpoint. rewrite find_all_listed. split; [done |].
  assert (Hl : listed "appointment"
                 (set_fields "botsession" i {[ "state" := VStr "complete" ]}
                    (insert_doc "appointment" (booking_of uid (text_of upd) a) d))
               = listed "appointment"
                   (insert_doc "appointment" (booking_of uid (text_of upd) a) d))
    by (unfold listed; by rewrite collection_set_fields_ne).
  rewrite Hl, listed_insert_doc. split.
  - apply last_snoc.
  - rewrite length_app. unfold listed. rewrite length_imap. cbn.
    unfold bookings. lia.
Qed.

Lemma bot_booking_is_listed_under_its_number_witness :
  ∃ app_id items,
    result (bot_update (msg 42 "no") no_faults (Some (one_session 42 "ask_note" ∅)))
      = inr (response (reply_done app_id) (VStr "complete")) ∧
    result (admin_list_appointments ∅ (get_admin_secret ∅) no_faults
              (store (bot_update (msg 42 "no") no_faults
                        (Some (one_session 42 "ask_note" ∅)))))
      = inr items ∧
    last items =
      Some (<["id" := VStr app_id]> (booking_of 42 (text_of (msg 42 "no")) ∅)) ∧
    List.length items = S (List.length (bookings (one_session 42 "ask_note" ∅))).
Proof.
  apply (bot_booking_is_listed_under_its_number ∅ (msg 42 "no") no_faults
           no_faults (one_session 42 "ask_note" ∅) 42 0
           (session_at 42 "ask_note" ∅) ∅);
    reflexivity.
Defined.

Lemma is_active_with_id it : is_active (with_id it) = is_active it.2.
Proof. unfold is_active, with_id. by rewrite lookup_insert_ne. Qed.

Lemma filter_active_with_id (l : list (nat * Doc)) :
  filter (λ item, is_active item = true) (with_id <$> l) =
    with_id <$> filter (λ it, is_active it.2 = true) l.
Proof.
  induction l as [| it l IH]; [done |].
  rewrite fmap_cons, !filter_cons, IH.
  destruct (decide (is_active it.2 = true)) as [Ha | Ha].
  - rewrite decide_True by by rewrite is_active_with_id. done.
  - rewrite decide_False by by rewrite is_active_with_id. done.
Qed.

(** X12: [list_services] shows exactly the stored services whose
    [is_active] is [True], each once and in stored order: it is the list of
    all stored services, each under its identifier, with the entries that
    are not active left out.  [list_portfolio] shows every stored item, in
    stored order.  In both, [id] is the identifier of the document (a
    stored field [id] is overwritten) and every other field is as
    stored. *)
Theorem listings_show_stored_documents flt d :
  ∃ services all items,
    result (list_services flt (Some d)) = inr services ∧
    (∀ i, all !! i =
          (λ doc, <["id" := VStr (HexString.of_nat i)]> doc)
            <$> collection d "tattooservice" !! i) ∧
    services = filter (λ item, is_active item = true) all ∧
    (∀ item, item ∈ services ↔
       ∃ i doc, collection d "tattooservice" !! i = Some doc ∧
                doc !! "is_active" = Some (VBool true) ∧
                item = <["id" := VStr (HexString.of_nat i)]> doc) ∧
    result (list_portfolio flt (Some d)) = inr items ∧
    (∀ i, items !! i =
          (λ doc, <["id" := VStr (HexString.of_nat i)]> doc)
            <$> collection d "portfolioitem" !! i).
Proof.
  exists (with_id <$> filter (λ it, is_active it.2 = true)
                        (imap pair (collection d "tattooservice"))),
    (listed "tattooservice" d), (listed "portfolioitem" d).
  split_and!.
  - by exec_endpoint.
  - intros i. unfold listed. by rewrite list_lookup_imap.
  - rewrite <- filter_active_with_id. unfold listed. by rewrite fmap_imap.
  - intros item. rewrite list_elem_of_fmap. split.
    + intros ([i doc] & -> & Hin).
      apply list_elem_of_filter in Hin as [Hact Hin].
      apply elem_of_lookup_imap in Hin as (j & doc' & ? & Hj). simplify_eq.
      exists j, doc'. split_and!; [done | | done].
      unfold is_active in Hact. cbn in Hact.
      by destruct (doc' !! "is_active") as [[| [] | | |]|].
    + intros (i & doc & Hi & Hact & ->). exists (i, doc). split; [done |].
      apply list_elem_of_filter. split.
      * cbn. unfold is_active. by rewrite Hact.
      * apply elem_of_lookup_imap. eauto.
  - exec_endpoint. by rewrite find_all_listed.
  - intros i. unfold listed. by rewrite list_lookup_imap.
Qed.

(** X13: with the secret and a store, [export_backup] dumps the four
    collections [tattooservice], [portfolioitem], [appointment] and
    [botsession], each with all its documents under their ids, and no other
    collection; without a store it fails with [TypeError] once the password
    is accepted. *)
Theorem export_backup_dumps_four_collections env flt d :
  (∃ dump,
     result (export_backup env (get_admin_secret env) flt (Some d)) = inr dump ∧
     (∀ c, c ∈ ["tattooservice"; "portfolioitem"; "appointment"; "botsession"] →
           dump !! c = Some (listed c d)) ∧
     (∀ c, c ∉ ["tattooservice"; "portfolioitem"; "appointment"; "botsession"] →
           dump !! c = None)) ∧
  export_backup env (get_admin_secret env) flt None =
    MkOutcome (inl TypeError) None [].
Proof.
  split; [| by exec_endpoint].
  eexists. split; [by exec_endpoint |]. rewrite !find_all_listed. split.
  - intros c Hc.
    repeat (apply elem_of_cons in Hc as [-> | Hc]);
      [| | | | by apply elem_of_nil in Hc].
    + do 3 (rewrite lookup_insert_ne by done). apply lookup_insert_eq.
    + do 2 (rewrite lookup_insert_ne by done). apply lookup_insert_eq.
    + rewrite lookup_insert_ne by done. apply lookup_insert_eq.
    + apply lookup_insert_eq.
  - intros c Hc. rewrite !lookup_insert_ne; [done | ..];
      intros <-; apply Hc; apply list_elem_of_In; simpl; tauto.
Qed.

(** X14: the id that [admin_add_portfolio] returns with the secret is the
    id under which [list_portfolio] then shows the new item, after all the
    items listed before. *)
Theorem added_portfolio_item_is_listed env payload flt flt' d :
  flt (InsertOne "portfolioitem") = false →
  let o := admin_add_portfolio env payload (get_admin_secret env) flt (Some d) in
  ∃ id before,
    result o = inr {[ "id" := VStr id ]} ∧
    result (list_portfolio flt' (Some d)) = inr before ∧
    result (list_portfolio flt' (store o)) =
      inr (before ++ [<["id" := VStr id]> (PortfolioItem_model_dump payload)])%list.
Proof.
  intros Hf o. subst o. eexists _, _. split_and!.
  - by exec_endpoint.
  - by exec_endpoint.
  - exec_endpoint. by rewrite !find_all_listed, listed_insert_doc.
Qed.

Lemma added_portfolio_item_is_listed_witness :
  ∃ id before,
    result (admin_add_portfolio ∅
              {| schemas.title := "Rose"; schemas.image_url := "https://img/rose.png";
                 schemas.style := None; schemas.description := None;
                 schemas.featured := false |}
              (get_admin_secret ∅) no_faults (Some ∅))
      = inr {[ "id" := VStr id ]} ∧
    result (list_portfolio no_faults (Some ∅)) = inr before ∧
    result (list_portfolio no_faults
              (store (admin_add_portfolio ∅
                        {| schemas.title := "Rose";
                           schemas.image_url := "https://img/rose.png";
                           schemas.style := None; schemas.description := None;
                           schemas.featured := false |}
                        (get_admin_secret ∅) no_faults (Some ∅)))) =
      inr (before ++
           [<["id" := VStr id]>
              (PortfolioItem_model_dump
                 {| schemas.title := "Rose";
                    schemas.image_url := "https://img/rose.png";
                    schemas.style := None; schemas.description := None;
                    schemas.featured := false |})])%list.
Proof.
  apply (added_portfolio_item_is_listed ∅ _ no_faults no_faults ∅).
  reflexivity.
Defined.

Lemma response_state reply state : response reply state !! "state" = Some state.
Proof.
  unfold response. rewrite lookup_insert_ne by done. apply lookup_singleton_eq.
Qed.

(** X15: the state in a response is the state stored for the sender.
    Whenever a call returns normally, the sender has a session afterwards,
    and the [state] of the response is the state of that session, except in
    the last [return] of [bot_update], which answers ["ask_name"] for a
    session in none of the five handled states and leaves the store as it
    is. *)
Theorem reply_state_is_stored_state upd flt d uid r :
  user_id upd = Some uid →
  result (bot_update upd flt (Some d)) = inr r →
  ∃ d' i s',
    store (bot_update upd flt (Some d)) = Some d' ∧
    find_session d' uid = Some (i, s') ∧
    (r !! "state" = Some (state_of s') ∨
     (r = response reply_fallback (VStr "ask_name") ∧ d' = d ∧
      ∀ tag, tag ∈ writing_states → state_of s' ≠ VStr tag)).
Proof.
  intros Hu. outcomes upd flt (Some d); intros Hr; simplify_eq.
  - eexists _, _, _. split_and!; [done | by apply find_session_new |].
    left. apply response_state.
  - eexists _, _, _. split_and!; [done | done |]. left.
    rewrite response_state. congruence.
  - destruct (advanced_session d uid i s next key (text_of upd) a)
      as (s' & Hf & Hst & _); [done |].
    eexists _, _, s'. split_and!; [done | done |]. left.
    rewrite response_state. congruence.
  - destruct (finalized_store d uid i s (booking_of uid (text_of upd) a))
      as (_ & s' & Hf & Hst & _); [done |].
    eexists _, _, s'. split_and!; [done | done |]. left.
    rewrite response_state. congruence.
  - eexists _, _, _. split_and!; [done | done |]. by right.
Qed.

Lemma reply_state_is_stored_state_witness :
  ∃ d' i s',
    store (bot_update (msg 42 "Alex") no_faults (Some (one_session 42 "ask_name" ∅)))
      = Some d' ∧
    find_session d' 42 = Some (i, s') ∧
    (response reply_ask_phone (VStr "ask_phone") !! "state" = Some (state_of s') ∨
     (response reply_ask_phone (VStr "ask_phone") =
        response reply_fallback (VStr "ask_name") ∧
      d' = one_session 42 "ask_name" ∅ ∧
      ∀ tag, tag ∈ writing_states → state_of s' ≠ VStr tag)).
Proof.
  apply (reply_state_is_stored_state (msg 42 "Alex") no_faults
           (one_session 42 "ask_name" ∅) 42
           (response reply_ask_phone (VStr "ask_phone")));
    reflexivity.
Defined.

(** ** Bookings when the store fails *)

(** C4, the claim as stated fails: when the session update fails after the
    booking was inserted, the failure reaches the caller and the session
    stays in [ask_note], but the booking is stored; the next message of
    the user books the same dialogue a second time. *)
Lemma failed_session_update_books_twice :
  let a := {[ "client_name" := VStr "Alex"; "phone" := VStr "+1555";
              "preferred_date" := VStr "2025-12-01";
              "preferred_time" := VStr "14:00" ]} in
  let d := one_session 42 "ask_note" a in
  let o1 := bot_update (msg 42 "no") (failing (UpdateOne "botsession")) (Some d) in
  let o2 := bot_update (msg 42 "no") no_faults (store o1) in
  result o1 = inl (PersistenceError (UpdateOne "botsession")) ∧
  (∃ d1 s1, store o1 = Some d1 ∧ find_session d1 42 = Some (0, s1) ∧
            state_of s1 = VStr "ask_note" ∧
            bookings d1 = [booking_of 42 "no" a]) ∧
  (∃ d2 s2, store o2 = Some d2 ∧ find_session d2 42 = Some (0, s2) ∧
            state_of s2 = VStr "complete" ∧
            bookings d2 = [booking_of 42 "no" a; booking_of 42 "no" a]).
Proof.
  split_and!; [reflexivity | |]; eexists _, _; split_and!; reflexivity.
Qed.

(** C4, amended: in state [ask_note], when the insert of the booking fails,
    the failure reaches the caller, nothing is stored, the session update
    is not attempted and the session stays in [ask_note]; when the later
    session update fails, the failure reaches the caller as well and the
    sessions are as before.  Every call attempts the booking insert at most
    once and adds a booking only for a session in [ask_note].  As long as
    no store operation fails, a dialogue is booked exactly once: over any
    number of calls a user has one booking when the session is [complete]
    and none before. *)
Theorem booking_failure_keeps_session upd flt d uid i s a :
  user_id upd = Some uid →
  find_session d uid = Some (i, s) →
  state_of s = VStr "ask_note" →
  data_of s = VDict a →
  flt (FindOne "botsession") = false →
  (flt (InsertOne "appointment") = true →
     bot_update upd flt (Some d) =
       MkOutcome (inl (PersistenceError (InsertOne "appointment"))) (Some d)
         [FindOne "botsession"; InsertOne "appointment"]) ∧
  (flt (InsertOne "appointment") = false →
   flt (UpdateOne "botsession") = true →
     result (bot_update upd flt (Some d)) =
       inl (PersistenceError (UpdateOne "botsession")) ∧
     ∃ d', store (bot_update upd flt (Some d)) = Some d' ∧
           sessions d' = sessions d ∧
           find_session d' uid = Some (i, s)) ∧
  (∀ upd' flt' db',
     let o := bot_update upd' flt' db' in
     (booking_inserts (ops o) ≤ 1)%nat ∧
     (stored_bookings (store o) = stored_bookings db' ∨
      ∃ d0 uid0 i0 s0 r,
        db' = Some d0 ∧
        user_id upd' = Some uid0 ∧
        find_session d0 uid0 = Some (i0, s0) ∧
        state_of s0 = VStr "ask_note" ∧
        stored_bookings (store o) = (bookings d0 ++ [r])%list)) ∧
  (∀ updates d0,
     booked_once d0 →
     ∃ d', run no_faults updates (Some d0) = Some d' ∧ booked_once d').
Proof.
  intros Hu Hs Hst Ha Hf. split_and!.
  - intros Hi. by eapply bot_update_note_insert_fails.
  - intros Hi Hup.
    rewrite (bot_update_note_update_fails upd flt d uid i s Hu Hf Hs a) by done.
    cbn [result store]. split; [done |].
    eexists. split_and!; [done | |].
    + by apply collection_insert_doc_ne.
    + by rewrite find_session_insert_doc.
  - intros upd' flt' db'. apply booking_inserted_at_most_once.
  - intros updates. induction updates as [| u updates IH]; intros d0 Hd0.
    + by exists d0.
    + cbn [run]. destruct (bot_update_store u no_faults d0) as [d1 Hd1].
      rewrite Hd1. apply IH. by eapply bot_update_booked_once.
Qed.

Lemma booking_failure_keeps_session_witness :
  failing (InsertOne "appointment") (InsertOne "appointment") = true ∧
  bot_update (msg 42 "no") (failing (InsertOne "appointment"))
      (Some (one_session 42 "ask_note" ∅)) =
    MkOutcome (inl (PersistenceError (InsertOne "appointment")))
      (Some (one_session 42 "ask_note" ∅))
      [FindOne "botsession"; InsertOne "appointment"].
Proof.
  split; [reflexivity |].
  apply (booking_failure_keeps_session (msg 42 "no")
           (failing (InsertOne "appointment")) (one_session 42 "ask_note" ∅)
           42 0 (session_at 42 "ask_note" ∅) ∅);
    reflexivity.
Defined.
